(** * test-e2e/utils/create-test-suites.js

    A shallow embedding of the end-to-end test bootstrap: the load-time
    configuration reader [initializeConfig], the root-level hooks around
    the BrowserStack Local daemon, the two environment enumerators, and
    [createTestSuites] with its per-suite hooks.

    JavaScript strings are [string]s whose characters are the code units
    below 256; [undefined], [null], booleans and strings are the values of
    [JsVal].  [process.env] is a finite map from names to strings.  Node's
    [url], [path], [fs] and [os] modules, the selenium driver, the Mocha
    runner and the BrowserStack Local daemon are collaborators outside the
    file: each is taken as an interface whose members are parameters. *)

From Stdlib Require Import ZArith Ascii String DecimalString.
From stdpp Require Import gmap strings list.
From Equations Require Import Equations.

Local Open Scope string_scope.

(** ** JavaScript values *)

Inductive JsVal : Type :=
| JUndefined
| JNull
| JBool (b : bool)
| JStr (s : string).

#[global] Instance JsVal_eq_dec : EqDecision JsVal.
Proof. solve_decision. Defined.

(** ToBoolean. *)
Definition truthy (v : JsVal) : bool :=
  match v with
  | JUndefined | JNull => false
  | JBool b => b
  | JStr s => negb (String.eqb s "")
  end.

(** [a && b] and [a || b] return one of their operands. *)
Definition js_and (a b : JsVal) : JsVal := if truthy a then b else a.
Definition js_or (a b : JsVal) : JsVal := if truthy a then a else b.

(** [a === b] on the values above. *)
Definition strict_eq (a b : JsVal) : bool := bool_decide (a = b).

(** ToString, as a template literal applies it. *)
Definition to_string (v : JsVal) : string :=
  match v with
  | JUndefined => "undefined"
  | JNull => "null"
  | JBool true => "true"
  | JBool false => "false"
  | JStr s => s
  end.

(** [arr.includes(v)] for an array of strings. *)
Definition includes (arr : list string) (v : JsVal) : bool :=
  existsb (fun s => strict_eq (JStr s) v) arr.
Arguments includes : simpl never.

(** [arr[i]]: a missing index reads as [undefined]. *)
Definition array_get (arr : list JsVal) (i : nat) : JsVal :=
  default JUndefined (arr !! i).

(** The double quote character. *)
Definition dq : string := String "034"%char EmptyString.

(** An [Error] object: its name and its message. *)
Record JsError : Type := MkError { err_name : string; err_message : string }.

#[global] Instance JsError_eq_dec : EqDecision JsError.
Proof. solve_decision. Defined.

(** The completion of a statement or a call: a value, or a thrown error. *)
Inductive Completion (A : Type) : Type :=
| Normal (a : A)
| Throw (e : JsError).
Arguments Normal {A} a.
Arguments Throw {A} e.

(** ** String.prototype.trim *)

(** White space and line terminators among the code units below 256:
    TAB, LF, VT, FF, CR, SP and NBSP. *)
Definition is_white_space (c : ascii) : bool :=
  let n := nat_of_ascii c in
  (n =? 9)%nat || (n =? 10)%nat || (n =? 11)%nat || (n =? 12)%nat ||
  (n =? 13)%nat || (n =? 32)%nat || (n =? 160)%nat.

Fixpoint trimStart (s : string) : string :=
  match s with
  | String c s' => if is_white_space c then trimStart s' else s
  | EmptyString => EmptyString
  end.

Fixpoint trimEnd (s : string) : string :=
  match s with
  | String c s' =>
      let t := trimEnd s' in
      if is_white_space c && String.eqb t "" then "" else String c t
  | EmptyString => EmptyString
  end.

Definition trim (s : string) : string := trimEnd (trimStart s).

(** ** String.prototype.split with the pattern /:(.+)/ *)

(** The line terminators [.] refuses: LF and CR. *)
Definition is_line_terminator (c : ascii) : bool :=
  let n := nat_of_ascii c in (n =? 10)%nat || (n =? 13)%nat.

(** [.+] is greedy and nothing follows it in the pattern: it takes the
    longest run of characters that are not line terminators.  The result
    is the run and what is left of the subject. *)
Fixpoint dot_run (s : string) : string * string :=
  match s with
  | String c s' =>
      if is_line_terminator c then ("", s)
      else let '(m, r) := dot_run s' in (String c m, r)
  | EmptyString => ("", "")
  end.

(** The pattern /:(.+)/ matched at the start of [s]: the capture group
    and the rest of the subject after the match. *)
Definition exec_colon_rest (s : string) : option (string * string) :=
  match s with
  | String ":" s' =>
      match dot_run s' with
      | (EmptyString, _) => None
      | (m, r) => Some (m, r)
      end
  | _ => None
  end.

Lemma dot_run_length (s : string) :
  (String.length (snd (dot_run s)) <= String.length s)%nat.
Proof.
  induction s as [|c s IH]; simpl; [lia|].
  destruct (is_line_terminator c); simpl; [lia|].
  destruct (dot_run s) as [m r]; simpl in *; lia.
Qed.

Lemma exec_colon_rest_length (s cap rest : string) :
  exec_colon_rest s = Some (cap, rest) ->
  (String.length rest < String.length s)%nat.
Proof.
  destruct s as [|c s]; simpl; [discriminate|].
  destruct (Ascii.eqb_spec c ":") as [->|Hc].
  - pose proof (dot_run_length s) as Hl.
    destruct (dot_run s) as [m r]; simpl in *.
    destruct m; intros [= <- <-]. lia.
  - destruct c as [[] [] [] [] [] [] [] []]; try discriminate; congruence.
Qed.

(** Remember which case of [a] a clause is in. *)
Definition inspect {A : Type} (a : A) : {b : A | a = b} := exist _ a eq_refl.

(** The split loop of the language definition: [piece] is the text since
    the last match, [s] the subject from the current position.  At each
    position the pattern is tried; a match closes the piece, adds the
    capture and resumes after the match; where none matches, the
    character joins the piece.  The last piece closes the array. *)
Equations? split_loop (piece s : string) : list JsVal by wf (String.length s) lt :=
  split_loop piece EmptyString := [JStr piece];
  split_loop piece (String c s') with inspect (exec_colon_rest (String c s')) => {
    | exist _ (Some (cap, rest)) Hm := JStr piece :: JStr cap :: split_loop "" rest;
    | exist _ None _ := split_loop (piece +:+ String c "") s' }.
Proof.
  change (exec_colon_rest (String c s') = Some (cap, rest)) in Hm.
  apply exec_colon_rest_length in Hm. exact Hm.
Qed.

(** [s.split(/:(.+)/)] *)
Definition split_colon_rest (s : string) : list JsVal := split_loop "" s.

(** ** Node's url module *)

(** The object [url.parse] returns. *)
Record Url : Type := MkUrl {
  protocol : JsVal;
  slashes : JsVal;
  auth : JsVal;
  host : JsVal;
  port : JsVal;
  hostname : JsVal;
  hash : JsVal;
  search : JsVal;
  query : JsVal;
  pathname : JsVal;
  path : JsVal;
  href : JsVal
}.

(** [[u.hostname, u.host] = [hn, h]] *)
Definition set_hostname_host (u : Url) (hn h : JsVal) : Url :=
  {| protocol := protocol u; slashes := slashes u; auth := auth u;
     host := h; port := port u; hostname := hn; hash := hash u;
     search := search u; query := query u; pathname := pathname u;
     path := path u; href := href u |}.

(** The two functions of the module the file calls.  [url.parse] may
    throw (a malformed escape in the credentials part, for one). *)
Class UrlModule : Type := {
  url_parse : string -> Completion Url;
  url_format : Url -> string
}.

(** ** The configuration object *)

Record BrowserStack : Type := MkBrowserStack {
  enabled : JsVal;
  user : JsVal;
  key : JsVal;
  localEnabled : JsVal
}.

Record Config : Type := MkConfig {
  browserHostUrl : JsVal;
  browserStack : BrowserStack
}.

Definition config0 : Config :=
  {| browserHostUrl := JStr "";
     browserStack := {| enabled := JBool false; user := JStr "";
                        key := JStr ""; localEnabled := JBool false |} |}.

Definition with_browserHostUrl (v : JsVal) (c : Config) : Config :=
  {| browserHostUrl := v; browserStack := browserStack c |}.
Definition with_enabled (v : JsVal) (c : Config) : Config :=
  {| browserHostUrl := browserHostUrl c;
     browserStack := {| enabled := v; user := user (browserStack c);
                        key := key (browserStack c);
                        localEnabled := localEnabled (browserStack c) |} |}.
Definition with_user (v : JsVal) (c : Config) : Config :=
  {| browserHostUrl := browserHostUrl c;
     browserStack := {| enabled := enabled (browserStack c); user := v;
                        key := key (browserStack c);
                        localEnabled := localEnabled (browserStack c) |} |}.
Definition with_key (v : JsVal) (c : Config) : Config :=
  {| browserHostUrl := browserHostUrl c;
     browserStack := {| enabled := enabled (browserStack c);
                        user := user (browserStack c); key := v;
                        localEnabled := localEnabled (browserStack c) |} |}.
Definition with_localEnabled (v : JsVal) (c : Config) : Config :=
  {| browserHostUrl := browserHostUrl c;
     browserStack := {| enabled := enabled (browserStack c);
                        user := user (browserStack c);
                        key := key (browserStack c); localEnabled := v |} |}.

(** ** The console *)

Inductive Level : Type := LLog | LWarn | LError.

#[global] Instance Level_eq_dec : EqDecision Level.
Proof. solve_decision. Defined.

(** One line written to the console: the method and the message. *)
Definition Line : Type := Level * string.

(** ** The world outside the file *)

(** The BrowserStack Local object, as far as the file asks it. *)
Record Daemon : Type := MkDaemon { isRunning : bool }.

(** Calls that leave the file, in the order they are made. *)
Inductive Event : Type :=
| TunnelNew
| TunnelStart (key : JsVal)
| TunnelStarted (error : option JsError)
| TunnelStop
| TunnelStopped (error : option JsError)
| SuiteRun (title : string)
| FsMkdir (dir : string)
| DriverScreenshot (file : string)
| DriverQuit.

#[global] Instance Event_eq_dec : EqDecision Event.
Proof. solve_decision. Defined.

(** ** Statements: the module's state, and exceptions *)

(** What the module-level code reads and writes: the [config] object,
    the console (oldest line first), the variable
    [blockStackLocalInstance] ([None] while undefined) and the calls made
    so far. *)
Record State : Type := MkState {
  config : Config;
  console : list Line;
  blockStackLocalInstance : option Daemon;
  trace : list Event
}.

Definition state0 : State :=
  {| config := config0; console := []; blockStackLocalInstance := None; trace := [] |}.

Definition M (A : Type) : Type := State -> Completion A * State.

Definition ret {A : Type} (a : A) : M A := fun st => (Normal a, st).

Definition bind {A B : Type} (m : M A) (k : A -> M B) : M B :=
  fun st =>
    match m st with
    | (Normal a, st') => k a st'
    | (Throw e, st') => (Throw e, st')
    end.

Definition throw {A : Type} (e : JsError) : M A := fun st => (Throw e, st).

(** [try { m } catch (err) { h err }] *)
Definition try_catch {A : Type} (m : M A) (h : JsError -> M A) : M A :=
  fun st =>
    match m st with
    | (Normal a, st') => (Normal a, st')
    | (Throw e, st') => h e st'
    end.

(** The result of a call that may throw. *)
Definition lift {A : Type} (c : Completion A) : M A := fun st => (c, st).

Definition read_config : M Config := fun st => (Normal (config st), st).

Definition read_instance : M (option Daemon) :=
  fun st => (Normal (blockStackLocalInstance st), st).

Definition assign (f : Config -> Config) : M unit :=
  fun st => (Normal tt,
             {| config := f (config st); console := console st;
                blockStackLocalInstance := blockStackLocalInstance st;
                trace := trace st |}).

Definition assign_instance (d : option Daemon) : M unit :=
  fun st => (Normal tt,
             {| config := config st; console := console st;
                blockStackLocalInstance := d; trace := trace st |}).

Definition print (l : Level) (msg : string) : M unit :=
  fun st => (Normal tt,
             {| config := config st; console := console st ++ [(l, msg)];
                blockStackLocalInstance := blockStackLocalInstance st;
                trace := trace st |}).

Definition emit (e : Event) : M unit :=
  fun st => (Normal tt,
             {| config := config st; console := console st;
                blockStackLocalInstance := blockStackLocalInstance st;
                trace := trace st ++ [e] |}).

Declare Scope js_scope.
Delimit Scope js_scope with js.
Notation "x <- m ;; k" := (bind m (fun x => k))
  (at level 100, m at next level, right associativity) : js_scope.
Notation "m ;; k" := (bind m (fun _ => k))
  (at level 100, right associativity) : js_scope.

(** A method call on a string: a receiver that is none is a TypeError. *)
Definition receiver (v : JsVal) : M string :=
  match v with
  | JStr s => ret s
  | _ => throw (MkError "TypeError" "Cannot read properties")
  end.

(** [url.parse(v)]: an argument that is not a string is a TypeError. *)
Definition parse_value `{UrlModule} (v : JsVal) : M Url :=
  match v with
  | JStr s => lift (url_parse s)
  | _ => throw (MkError "TypeError" "The url argument must be of type string")
  end.

(** ** initializeConfig *)

(** [process.env]: the variables that are set, each with its string. *)
Abbreviation Env := (gmap string string).

(** [process.env[name]] *)
Definition getenv (env : Env) (name : string) : JsVal :=
  match env !! name with
  | Some v => JStr v
  | None => JUndefined
  end.

Definition BROWSERSTACK_HUB_URL : string := "http://hub-cloud.browserstack.com/wd/hub".
Definition E2E_BROWSER_HOST : string := "E2E_BROWSER_HOST".
Definition PROD_HOST : string := "https://browser.blockstack.org".
Definition USE_BROWSERSTACK : string := "USE_BROWSERSTACK".
Definition BROWSERSTACK_AUTH : string := "BROWSERSTACK_AUTH".
Definition expectedPort : string := "5757".

Definition host_not_set_warning : string :=
  "WARNING: The browser host url was not set via the " +:+ E2E_BROWSER_HOST +:+
  " env var.. running tests against the production endpoint " +:+
  dq +:+ PROD_HOST +:+ dq.

Definition endpoint_message (url : JsVal) : string :=
  "Running e2e tests against endpoint " +:+ to_string url.

Definition auth_error_message : string :=
  "The BrowserStack auth must be set as environment variables. Use the format `" +:+
  BROWSERSTACK_AUTH +:+ "=" +:+ dq +:+ "user:key" +:+ dq +:+ "`".

Definition port_warning (p : JsVal) : string :=
  "WARNING: BrowserStack Local is enabled but the host port is " +:+ to_string p +:+
  " rather than the expected port " +:+ expectedPort +:+ ". " +:+
  "This may cause problems for BrowserStack Safari environments.. " +:+
  "for more information see https://www.browserstack.com/question/664".

Section InitializeConfig.
Context `{UrlModule}.
Variable env : Env.

Local Open Scope js_scope.

(** Determine which browser host endpoint to run tests against. *)
Definition resolve_host : M unit :=
  assign (with_browserHostUrl (js_or (getenv env E2E_BROWSER_HOST) (JStr PROD_HOST))) ;;
  if negb (truthy (getenv env E2E_BROWSER_HOST)) then
    print LWarn host_not_set_warning
  else
    cfg <- read_config ;;
    print LLog (endpoint_message (browserHostUrl cfg)).

(** Check environment vars for BrowserStack usage settings. *)
Definition read_browserstack : M unit :=
  assign (with_enabled
            (js_and (getenv env USE_BROWSERSTACK)
                    (JBool (negb (strict_eq (getenv env USE_BROWSERSTACK) (JStr "false")))))) ;;
  cfg <- read_config ;;
  if truthy (enabled (browserStack cfg)) then
    let browserstackAuth := getenv env BROWSERSTACK_AUTH in
    (if negb (truthy browserstackAuth) then
       let errMsg := auth_error_message in
       print LError errMsg ;;
       throw (MkError "Error" errMsg)
     else ret tt) ;;
    s <- receiver browserstackAuth ;;
    let parts := split_colon_rest (trim s) in
    assign (with_user (array_get parts 0)) ;;
    assign (with_key (array_get parts 1))
  else ret tt.

(** Check if the host port is the expected port that is supported by
    BrowserStack Safari environments. *)
Definition check_port (parsedUrl : Url) : M unit :=
  cfg <- read_config ;;
  if truthy (localEnabled (browserStack cfg))
     && negb (strict_eq (port parsedUrl) (JStr expectedPort)) then
    print LWarn (port_warning (port parsedUrl))
  else ret tt.

(** If the host endpoint is localhost and BrowserStack testing is
    enabled then BrowserStack Local must be used. *)
Definition detect_local : M unit :=
  cfg <- read_config ;;
  if truthy (enabled (browserStack cfg)) then
    parsedUrl <- parse_value (browserHostUrl cfg) ;;
    assign (with_localEnabled
              (JBool (includes ["localhost"; "127.0.0.1"] (hostname parsedUrl)))) ;;
    check_port parsedUrl
  else ret tt.

(** If BrowserStack Local is enabled then the host url is swapped from
    localhost to bs-local.com. *)
Definition swap_host : M unit :=
  cfg <- read_config ;;
  if truthy (localEnabled (browserStack cfg)) then
    parsedUrl <- parse_value (browserHostUrl cfg) ;;
    let parsedUrl := set_hostname_host parsedUrl (JStr "bs-local.com") JUndefined in
    assign (with_browserHostUrl (JStr (url_format parsedUrl)))
  else ret tt.

Definition initializeConfig : M unit :=
  resolve_host ;;
  read_browserstack ;;
  detect_local ;;
  swap_host.

End InitializeConfig.

(** The module's load: [initializeConfig] run on the initial [config]. *)
Definition load `{UrlModule} (env : Env) : Completion unit * State :=
  initializeConfig env state0.

(** ** A small url module to run the model with

    A reader and a writer for absolute URLs of the shape
    [scheme://hostname[:port][path]], enough to evaluate the definitions
    above on concrete environments.  Anything else reads as a bare path. *)
Module SampleUrl.

(** The text before and after the first occurrence of [sep]. *)
Definition cut (sep s : string) : option (string * string) :=
  match String.index 0 sep s with
  | Some i =>
      Some (String.substring 0 i s,
            String.substring (i + String.length sep)
                             (String.length s - (i + String.length sep)) s)
  | None => None
  end.

Definition or_null (s : string) : JsVal :=
  if String.eqb s "" then JNull else JStr s.

Definition parse (s : string) : Completion Url :=
  match cut "://" s with
  | Some (scheme, rest) =>
      let '(authority, p) :=
        match cut "/" rest with
        | Some (a, p) => (a, "/" +:+ p)
        | None => (rest, "/")
        end in
      let '(hn, pt) :=
        match cut ":" authority with
        | Some (h, p) => (h, or_null p)
        | None => (authority, JNull)
        end in
      Normal {| protocol := JStr (scheme +:+ ":"); slashes := JBool true;
                auth := JNull; host := or_null authority; port := pt;
                hostname := or_null hn; hash := JNull; search := JNull;
                query := JNull; pathname := JStr p; path := JStr p;
                href := JStr (scheme +:+ "://" +:+ authority +:+ p) |}
  | None =>
      Normal {| protocol := JNull; slashes := JNull; auth := JNull;
                host := JNull; port := JNull; hostname := JNull;
                hash := JNull; search := JNull; query := JNull;
                pathname := or_null s; path := or_null s; href := JStr s |}
  end.

Definition text (v : JsVal) : string := if truthy v then to_string v else "".

Definition format (u : Url) : string :=
  let authority :=
    if truthy (host u) then to_string (host u)
    else if truthy (hostname u) then
      to_string (hostname u) +:+
      (if truthy (port u) then ":" +:+ to_string (port u) else "")
    else "" in
  text (protocol u) +:+
  (if truthy (slashes u) then "//" +:+ authority else authority) +:+
  text (pathname u) +:+ text (search u) +:+ text (hash u).

#[export] Instance module : UrlModule :=
  {| url_parse := parse; url_format := format |}.

End SampleUrl.

(** Environments built from the three variables, unset where [None]. *)
Definition make_env (host use auth : option string) : Env :=
  let put (k : string) (v : option string) (m : Env) : Env :=
    match v with Some s => <[k := s]> m | None => m end in
  put E2E_BROWSER_HOST host (put USE_BROWSERSTACK use (put BROWSERSTACK_AUTH auth ∅)).

(** ** Promises and the outside world *)

(** A promise of [undefined], by how it settles. *)
Inductive Promise : Type :=
| Fulfilled
| Rejected (e : JsError).

(** [await p], and the runner waiting on a promise a hook returns. *)
Definition await (p : Promise) : M unit :=
  match p with
  | Fulfilled => ret tt
  | Rejected e => throw e
  end.

(** [String(err)] for an Error object. *)
Definition error_to_string (e : JsError) : string :=
  err_name e +:+ ": " +:+ err_message e.

(** What the collaborators answer during one run: the daemon's callbacks
    ([None] for a call without error), [os.tmpdir], [path.resolve] on two
    segments, [fs.existsSync], [fs.mkdirSync], [Date.now] in milliseconds,
    [helpers.getRandomString], and the driver's [screenshot] and [quit],
    which throw or return a promise. *)
Record World : Type := MkWorld {
  start_error : option JsError;
  stop_error : option JsError;
  tmpdir : string;
  path_resolve : string -> string -> string;
  existsSync : string -> bool;
  mkdirSync : string -> Completion unit;
  now : Z;
  getRandomString : nat -> string;
  screenshot : string -> Completion Promise;
  quit : Completion Promise
}.

(** ** The root-level hooks around BrowserStack Local *)

Section RootHooks.
Variable w : World.

Local Open Scope js_scope.

(** [blockStackLocalInstance.start(options, callback)] inside
    [new Promise]: the promise settles as the callback is called. *)
Definition start_promise (options_key : JsVal) : M Promise :=
  emit (TunnelStart options_key) ;;
  emit (TunnelStarted (start_error w)) ;;
  match start_error w with
  | Some error =>
      print LError ("Error starting BrowserStack Local: " +:+ error_to_string error) ;;
      ret (Rejected error)
  | None =>
      assign_instance (Some {| isRunning := true |}) ;;
      print LLog "BrowserStack Local started" ;;
      ret Fulfilled
  end.

(** [before(async () => ...)] at the root level. *)
Definition root_before : M unit :=
  cfg <- read_config ;;
  if truthy (localEnabled (browserStack cfg)) then
    print LLog "BrowserStack is enabled the test endpoint is localhost, setting up BrowserStack Local.." ;;
    emit TunnelNew ;;
    assign_instance (Some {| isRunning := false |}) ;;
    p <- start_promise (key (browserStack cfg)) ;;
    await p
  else ret tt.

(** [blockStackLocalInstance.stop(callback)] inside [new Promise]. *)
Definition stop_promise : M Promise :=
  emit TunnelStop ;;
  emit (TunnelStopped (stop_error w)) ;;
  match stop_error w with
  | Some error =>
      print LError ("Error stopping BrowserStack Local: " +:+ error_to_string error) ;;
      ret (Rejected error)
  | None =>
      assign_instance (Some {| isRunning := false |}) ;;
      ret Fulfilled
  end.

(** [after(() => ...)] at the root level. *)
Definition root_after : M unit :=
  inst <- read_instance ;;
  match inst with
  | Some d =>
      if isRunning d then
        p <- stop_promise ;;
        await p
      else ret tt
  | None => ret tt
  end.

(** The runner: root-level [before] hooks once before the first suite,
    the suites in order, root-level [after] hooks once after the last.
    A failed [before] hook skips the suites, not the [after] hooks. *)
Fixpoint run_suites (titles : list string) : M unit :=
  match titles with
  | [] => ret tt
  | t :: ts => emit (SuiteRun t) ;; run_suites ts
  end.

Definition mocha_run (suites : list string) (st : State) : State :=
  let '(r, st1) := root_before st in
  let st2 := match r with
             | Normal _ => snd (run_suites suites st1)
             | Throw _ => st1
             end in
  snd (root_after st2).

End RootHooks.

(** One process: the module's load, then the runner if the load did not
    throw. *)
Definition process `{UrlModule} (env : Env) (w : World) (suites : list string) : State :=
  match load env with
  | (Normal _, st) => mocha_run w suites st
  | (Throw _, st) => st
  end.


(** ** The per-suite hooks *)

(** The members of [testInputs.driver] the hooks look at: [{}] has
    neither, the mixed-in driver may have both. *)
Record DriverCell : Type := MkDriverCell {
  has_screenshot : bool;
  has_quit : bool
}.

(** ToInt32, the conversion [| 0] applies. *)
Definition to_int32 (z : Z) : Z :=
  let m := (z mod 2 ^ 32)%Z in
  if (m >=? 2 ^ 31)%Z then (m - 2 ^ 32)%Z else m.

(** The decimal digits of an integer, as the template literal prints it. *)
Definition string_of_Z (z : Z) : string := NilZero.string_of_int (Z.to_int z).

(** [Date.now() / 1000 | 0]: the quotient's integer part (exact for a
    millisecond count below 2^53), then ToInt32. *)
Definition seconds_int32 (now_ms : Z) : Z := to_int32 (Z.quot now_ms 1000).

Definition screenshot_name (now_ms : Z) (rand : string) : string :=
  "screenshot-" +:+ string_of_Z (seconds_int32 now_ms) +:+ "-" +:+ rand +:+ ".png".

Definition screenshot_warning (err : JsError) : string :=
  "Error trying to create screenshot after test failure: " +:+ error_to_string err.

Section SuiteHooks.
Variable w : World.

Local Open Scope js_scope.

Definition errDir : string := path_resolve w (tmpdir w) "selenium-errors".

Definition screenshotFile : string :=
  path_resolve w errDir (screenshot_name (now w) (getRandomString w 6)).

(** [afterEach(function () {...})]; [state] is [this.currentTest.state]. *)
Definition afterEach_hook (state : JsVal) (driver : DriverCell) : M unit :=
  try_catch
    (if strict_eq state (JStr "failed") && has_screenshot driver then
       (if negb (existsSync w errDir) then
          emit (FsMkdir errDir) ;; lift (mkdirSync w errDir)
        else ret tt) ;;
       emit (DriverScreenshot screenshotFile) ;;
       p <- lift (screenshot w screenshotFile) ;;
       match p with
       | Fulfilled =>
           print LLog ("screenshot for failure saved to " +:+ screenshotFile)
       | Rejected err => print LWarn (screenshot_warning err)
       end
     else ret tt)
    (fun err => print LWarn (screenshot_warning err)).

(** [after(async () => {...})] inside the suite. *)
Definition suite_after (driver : DriverCell) : M unit :=
  try_catch
    (if has_quit driver then
       emit DriverQuit ;;
       p <- lift (quit w) ;;
       await p
     else ret tt)
    (fun err => print LWarn ("Error disposing driver after tests: " +:+ error_to_string err)).

End SuiteHooks.

(** ** Test environments *)

(** A capability object of [browserstack-environments]: property names
    to values. *)
Abbreviation Capability := (gmap string JsVal).

(** [capability[name]] *)
Definition prop (c : Capability) (name : string) : JsVal :=
  default JUndefined (c !! name).

(** How [createDriver] builds its driver: against a hub, with the
    capability object at an index of the shared array (the closure keeps
    the object, not a copy), or for a browser of the local machine. *)
Inductive DriverFactory : Type :=
| UsingServer (server : string) (capability : nat)
| ForBrowser (browser : string).

Record TestEnvironment : Type := MkTestEnvironment {
  description : JsVal;
  createDriver : DriverFactory
}.

(** The body of the loop over [browserStackEnvironments], for the object
    at index [i]: it is updated in place and one environment is yielded. *)
Definition browserstack_environment (cfg : Config) (user key : JsVal)
    (i : nat) (capability : Capability) : Capability * TestEnvironment :=
  let capability :=
    <["browserstack.key" := key]> (<["browserstack.user" := user]> capability) in
  let capability :=
    if truthy (localEnabled (browserStack cfg))
    then <["browserstack.local" := JStr "true"]> capability
    else capability in
  (capability,
   {| description := prop capability "desc";
      createDriver := UsingServer BROWSERSTACK_HUB_URL i |}).

(** [getBrowserstackEnvironments(user, key)], run to its end: the array
    of capability objects after the updates, and the environments
    yielded.  [i] is the index of the first object of [caps]. *)
Fixpoint browserstack_loop (cfg : Config) (user key : JsVal) (i : nat)
    (caps : list Capability) : list Capability * list TestEnvironment :=
  match caps with
  | [] => ([], [])
  | capability :: rest =>
      let '(capability', e) := browserstack_environment cfg user key i capability in
      let '(rest', es) := browserstack_loop cfg user key (S i) rest in
      (capability' :: rest', e :: es)
  end.

Definition getBrowserstackEnvironments (cfg : Config)
    (browserStackEnvironments : list Capability) (user key : JsVal)
  : list Capability * list TestEnvironment :=
  browserstack_loop cfg user key 0 browserStackEnvironments.

(** [new Set(arr)], in iteration order: first occurrences. *)
Fixpoint set_of (seen arr : list string) : list string :=
  match arr with
  | [] => []
  | x :: rest =>
      if bool_decide (x ∈ seen) then set_of seen rest
      else x :: set_of (x :: seen) rest
  end.

(** [getLocalSystemBrowserEnvironments()], run to its end. *)
Definition getLocalSystemBrowserEnvironments (platform : string) : list TestEnvironment :=
  let browsers := ["firefox"; "chrome"] in
  let browsers :=
    if String.eqb platform "darwin" then (browsers ++ ["safari"])%list
    else if String.eqb platform "win32" then (browsers ++ ["edge"])%list
    else browsers in
  map (fun browser =>
         {| description := JStr (platform +:+ " " +:+ browser);
            createDriver := ForBrowser browser |})
      (set_of [] browsers).

(** ** createTestSuites *)

Module TestInputs.
(** [driver] is the number of the suite's driver object, [{}] until
    the first step fills it. *)
Record t : Type := Make {
  envDesc : JsVal;
  browserHostUrl : JsVal;
  driver : nat
}.
End TestInputs.

(** What a file registers with the runner.  [Defined] stands for one call
    of the caller's [defineTests] and what it registered. *)
#[warnings="-register-all"]
Inductive Registration : Type :=
| Describe (title : string) (body : list Registration)
| Step (title : string) (timeout : Z) (factory : DriverFactory) (driver : nat)
| Test (title : string)
| Defined (inputs : TestInputs.t) (registered : list Registration)
| AfterEach (driver : nat)
| After (driver : nat).

Section CreateTestSuites.
Variable cfg : Config.
Variable platform : string.
Variable title : string.
Variable defineTests : TestInputs.t -> list Registration.

(** The body of the loop over the environments; [n] numbers the suite. *)
Definition suite (n : nat) (testEnvironment : TestEnvironment) : Registration :=
  Describe (title +:+ " [" +:+ to_string (description testEnvironment) +:+ "]")
    (let testInputs :=
       {| TestInputs.envDesc := description testEnvironment;
          TestInputs.browserHostUrl := browserHostUrl cfg;
          TestInputs.driver := n |} in
     [ Step "create selenium webdriver" 120000 (createDriver testEnvironment) n;
       Defined testInputs (defineTests testInputs);
       AfterEach n;
       After n ]).

Fixpoint suites (n : nat) (testEnvironments : list TestEnvironment) : list Registration :=
  match testEnvironments with
  | [] => []
  | testEnvironment :: rest => suite n testEnvironment :: suites (S n) rest
  end.

(** The enumerator the conditional picks, run to its end, with the
    capability array as it leaves it. *)
Definition testEnvironments (browserStackEnvironments : list Capability)
  : list Capability * list TestEnvironment :=
  if truthy (enabled (browserStack cfg))
  then getBrowserstackEnvironments cfg browserStackEnvironments
         (user (browserStack cfg)) (key (browserStack cfg))
  else (browserStackEnvironments, getLocalSystemBrowserEnvironments platform).

Definition createTestSuites (browserStackEnvironments : list Capability)
  : list Capability * list Registration :=
  let '(caps, envs) := testEnvironments browserStackEnvironments in
  (caps, suites 0 envs).

End CreateTestSuites.

(** ** Credential parsing, as a direct recursion *)

(** [s] starts with a colon that a character other than a line
    terminator follows. *)
Definition separator_here (s : string) : bool :=
  match s with
  | String ":" (String c _) => negb (is_line_terminator c)
  | _ => false
  end.

Arguments separator_here : simpl never.

(** The text of [s] up to its first line terminator. *)
Fixpoint until_line_terminator (s : string) : string :=
  match s with
  | String c s' =>
      if is_line_terminator c then "" else String c (until_line_terminator s')
  | EmptyString => ""
  end.

(** The first colon of [s] that a character other than a line terminator
    follows: the text before it, and the text after it up to the next
    line terminator. *)
Fixpoint first_separator (s : string) : option (string * string) :=
  match s with
  | EmptyString => None
  | String c s' =>
      if separator_here s then Some ("", until_line_terminator s')
      else match first_separator s' with
           | Some (u, k) => Some (String c u, k)
           | None => None
           end
  end.

(** Whether a character of [s] satisfies [p]. *)
Fixpoint some_char (p : ascii -> bool) (s : string) : bool :=
  match s with
  | String c s' => p c || some_char p s'
  | EmptyString => false
  end.

Definition has_colon (s : string) : bool := some_char (Ascii.eqb ":") s.
Definition has_line_terminator (s : string) : bool := some_char is_line_terminator s.

(** The credentials line 56 stores, read off the trimmed string. *)
Definition credentials (browserstackAuth : string) : JsVal * JsVal :=
  match first_separator (trim browserstackAuth) with
  | Some (u, k) => (JStr u, JStr k)
  | None => (JStr (trim browserstackAuth), JUndefined)
  end.

(** A credential that is present: a string that is not empty. *)
Definition present (v : JsVal) : Prop := exists s : string, v = JStr s /\ s <> "".

(** Both credentials of a configuration are present. *)
Definition credentials_present (c : Config) : Prop :=
  present (user (browserStack c)) /\ present (key (browserStack c)).

(** A split at the first colon only: the user is the text before the
    first colon and the key all of the text after it; without a colon
    the user is the whole string and the key is undefined. *)
Definition splits_at_first_colon (s : string) (user key : JsVal) : Prop :=
  (forall u k : string,
      s = u +:+ ":" +:+ k -> has_colon u = false -> user = JStr u /\ key = JStr k) /\
  (has_colon s = false -> user = JStr s /\ key = JUndefined).

(** ** The load, case by case *)

Section LoadOutcome.
Context `{UrlModule}.
Variable env : Env.

(** The value line 47 stores in [config.browserStack.enabled]. *)
Definition enabled_of : JsVal :=
  js_and (getenv env USE_BROWSERSTACK)
         (JBool (negb (strict_eq (getenv env USE_BROWSERSTACK) (JStr "false")))).

(** The string line 37 stores in [config.browserHostUrl]. *)
Definition host_of : string :=
  match env !! E2E_BROWSER_HOST with
  | Some h => if String.eqb h "" then PROD_HOST else h
  | None => PROD_HOST
  end.

(** The console line of lines 38 to 42. *)
Definition host_line : Line :=
  if negb (truthy (getenv env E2E_BROWSER_HOST))
  then (LWarn, host_not_set_warning)
  else (LLog, endpoint_message (JStr host_of)).

Definition state_of (c : Config) (l : list Line) : State :=
  {| config := c; console := l; blockStackLocalInstance := None; trace := [] |}.

(** The configuration after line 47. *)
Definition config_47 : Config :=
  with_enabled enabled_of (with_browserHostUrl (JStr host_of) config0).

(** The configuration after line 56, for the credential string [a]. *)
Definition config_56 (a : string) : Config :=
  let parts := split_colon_rest (trim a) in
  with_key (array_get parts 1) (with_user (array_get parts 0) config_47).

(** The port warning of lines 71 to 74, if any. *)
Definition port_lines (u : Url) : list Line :=
  if includes ["localhost"; "127.0.0.1"] (hostname u)
     && negb (strict_eq (port u) (JStr expectedPort))
  then [(LWarn, port_warning (port u))] else [].

(** The configuration after line 86, for the credential string [a] and
    the parsed host [u]. *)
Definition config_86 (a : string) (u : Url) : Config :=
  let c := with_localEnabled (JBool (includes ["localhost"; "127.0.0.1"] (hostname u)))
                             (config_56 a) in
  if includes ["localhost"; "127.0.0.1"] (hostname u)
  then with_browserHostUrl
         (JStr (url_format (set_hostname_host u (JStr "bs-local.com") JUndefined))) c
  else c.

(** The four ways the load ends. *)
Inductive LoadCase : Prop :=
| CaseDisabled (_ : truthy enabled_of = false)
               (_ : load env = (Normal tt, state_of config_47 [host_line]))
| CaseNoAuth (_ : truthy enabled_of = true)
             (_ : truthy (getenv env BROWSERSTACK_AUTH) = false)
             (_ : load env =
                  (Throw (MkError "Error" auth_error_message),
                   state_of config_47 [host_line; (LError, auth_error_message)]))
| CaseParseThrows (a : string) (e : JsError)
             (_ : truthy enabled_of = true)
             (_ : env !! BROWSERSTACK_AUTH = Some a) (_ : a <> "")
             (_ : url_parse host_of = Throw e)
             (_ : load env = (Throw e, state_of (config_56 a) [host_line]))
| CaseParsed (a : string) (u : Url)
             (_ : truthy enabled_of = true)
             (_ : env !! BROWSERSTACK_AUTH = Some a) (_ : a <> "")
             (_ : url_parse host_of = Normal u)
             (_ : load env =
                  (Normal tt, state_of (config_86 a u) (host_line :: port_lines u))).

End LoadOutcome.

(** ** Concrete runs *)

(** Cloud mode against a local host, with well-formed credentials. *)
Definition env_localhost : Env :=
  make_env (Some "http://localhost:5757/auth") (Some "true") (Some "alice:s3:cr3t").

(** Cloud mode with a credential string that has no colon. *)
Definition env_user_only : Env :=
  make_env None (Some "true") (Some "useronly").

(** Cloud mode with a credential string that ends in its only colon. *)
Definition env_trailing_colon : Env :=
  make_env None (Some "true") (Some "user:").

(** A world where every call succeeds: no directory yet, a clock in
    November 2023, POSIX paths. *)
Definition calm_world : World :=
  {| start_error := None;
     stop_error := None;
     tmpdir := "/tmp";
     path_resolve := fun a b => a +:+ "/" +:+ b;
     existsSync := fun _ => false;
     mkdirSync := fun _ => Normal tt;
     now := 1700000000123;
     getRandomString := fun n => String.substring 0 n "k3x9qazw7v";
     screenshot := fun _ => Normal Fulfilled;
     quit := Normal Fulfilled |}.



(** A driver object after the first step filled it. *)
Definition full_driver : DriverCell := {| has_screenshot := true; has_quit := true |}.

(** ** The calls of a run *)

(** The calls of a run that starts with no instance and no call made. *)
Definition run_trace (w : World) (cfg : Config) (suites : list string) : list Event :=
  if truthy (localEnabled (browserStack cfg)) then
    [TunnelNew; TunnelStart (key (browserStack cfg)); TunnelStarted (start_error w)] ++
    match start_error w with
    | None => map SuiteRun suites ++ [TunnelStop; TunnelStopped (stop_error w)]
    | Some _ => []
    end
  else map SuiteRun suites.

(** ** Reading arrays and registrations back *)

(** Whether every character of [s] satisfies [p]. *)
Fixpoint every_char (p : ascii -> bool) (s : string) : bool :=
  match s with
  | String c s' => p c && every_char p s'
  | EmptyString => true
  end.

(** The subject a split array came from: pieces and captures alternate,
    and each capture followed the colon of its match. *)
Fixpoint rejoin (parts : list JsVal) : string :=
  match parts with
  | [] => ""
  | [piece] => to_string piece
  | piece :: cap :: rest => to_string piece +:+ ":" +:+ to_string cap +:+ rejoin rest
  end.

(** The title of a registered group or test; hooks and calls have none. *)
Definition registration_title (r : Registration) : option string :=
  match r with
  | Describe title _ => Some title
  | Step title _ _ _ => Some title
  | Test title => Some title
  | Defined _ _ | AfterEach _ | After _ => None
  end.

(** Two capability objects as [browserstack-environments] may list them;
    the second already asks for the tunnel. *)
Definition sample_capabilities : list Capability :=
  [ <["desc" := JStr "Windows 10 Chrome"]> (<["browser" := JStr "Chrome"]> ∅);
    <["desc" := JStr "OS X Safari"]>
      (<["browser" := JStr "Safari"]> (<["browserstack.local" := JStr "false"]> ∅)) ].

(** Cloud mode switched off by the string "false", with credentials and
    a local host set all the same. *)
Definition env_cloud_off : Env :=
  make_env (Some "http://localhost:5757/auth") (Some "false") (Some "alice:s3:cr3t").

(** Cloud mode without credentials. *)
Definition env_no_auth : Env :=
  make_env None (Some "true") None.

(** Cloud mode with credentials that are white space only. *)
Definition env_blank_auth : Env :=
  make_env None (Some "true") (Some "   ").

(** * Properties *)

(** ** The pattern and the split loop *)

Lemma dot_run_fst (s : string) : fst (dot_run s) = until_line_terminator s.
Proof.
  induction s as [|c s IH]; simpl; [reflexivity|].
  destruct (is_line_terminator c); [reflexivity|].
  destruct (dot_run s) as [m r]; simpl in *. congruence.
Qed.

Lemma exec_colon_rest_here (s : string) :
  exec_colon_rest s =
  if separator_here s
  then match s with
       | String _ s' => Some (until_line_terminator s', snd (dot_run s'))
       | EmptyString => None
       end
  else None.
Proof.
  unfold separator_here.
  destruct s as [|c s]; [reflexivity|].
  destruct (Ascii.eqb_spec c ":") as [->|Hc].
  - simpl. destruct s as [|d s]; [reflexivity|].
    simpl. destruct (is_line_terminator d); [reflexivity|].
    rewrite <- dot_run_fst. destruct (dot_run s) as [m r]; reflexivity.
  - destruct c as [[] [] [] [] [] [] [] []]; try reflexivity. congruence.
Qed.

Lemma split_loop_cons (piece : string) (c : ascii) (s' : string) :
  split_loop piece (String c s') =
  match exec_colon_rest (String c s') with
  | Some (cap, rest) => JStr piece :: JStr cap :: split_loop "" rest
  | None => split_loop (piece +:+ String c "") s'
  end.
Proof.
  rewrite split_loop_equation_2.
  unfold split_loop_unfold_clause_2, inspect.
  destruct (exec_colon_rest (String c s')) as [[cap rest]|]; reflexivity.
Qed.

(** The array a well-formed credential string splits into: the match
    ends the subject, so an empty piece closes the array. *)
Example split_user_key :
  split_colon_rest "user:key" = [JStr "user"; JStr "key"; JStr ""].
Proof. reflexivity. Qed.

(** A key is cut at a line terminator, and the rest is split again. *)
Example split_across_lines :
  split_colon_rest ("u:ab" +:+ String "010" "c:d") =
  [JStr "u"; JStr "ab"; JStr (String "010" "c"); JStr "d"; JStr ""].
Proof. reflexivity. Qed.

(** ** Running the initializer *)

Section LoadFacts.
Context `{UrlModule}.
Variable env : Env.

Lemma js_or_host : js_or (getenv env E2E_BROWSER_HOST) (JStr PROD_HOST) = JStr (host_of env).
Proof.
  unfold js_or, getenv, host_of.
  destruct (env !! E2E_BROWSER_HOST) as [h|]; simpl; [|reflexivity].
  destruct (String.eqb h ""); reflexivity.
Qed.

Lemma resolve_host_run (st : State) :
  resolve_host env st =
  (Normal tt,
   {| config := with_browserHostUrl (JStr (host_of env)) (config st);
      console := console st ++ [(host_line env)];
      blockStackLocalInstance := blockStackLocalInstance st;
      trace := trace st |}).
Proof.
  unfold resolve_host, bind, assign, print, read_config, host_line.
  rewrite js_or_host. simpl.
  destruct (negb (truthy (getenv env E2E_BROWSER_HOST))); reflexivity.
Qed.

(** The four ways the load ends. *)
Lemma load_disabled :
  truthy (enabled_of env) = false ->
  load env = (Normal tt, state_of (config_47 env) [(host_line env)]).
Proof.
  intros Hen. unfold load, initializeConfig, bind at 1.
  rewrite resolve_host_run.
  unfold read_browserstack, detect_local, swap_host, bind, assign, read_config, ret.
  simpl. fold (enabled_of env). rewrite Hen. simpl. rewrite Hen. reflexivity.
Qed.

Lemma load_no_auth :
  truthy (enabled_of env) = true ->
  truthy (getenv env BROWSERSTACK_AUTH) = false ->
  load env =
  (Throw (MkError "Error" auth_error_message),
   state_of (config_47 env) [(host_line env); (LError, auth_error_message)]).
Proof.
  intros Hen Hau. unfold load, initializeConfig, bind at 1.
  rewrite resolve_host_run.
  unfold read_browserstack, bind, assign, read_config, print, throw, ret.
  simpl. fold (enabled_of env). rewrite Hen, Hau. reflexivity.
Qed.

Lemma load_parse_throws (a : string) (e : JsError) :
  truthy (enabled_of env) = true ->
  env !! BROWSERSTACK_AUTH = Some a -> a <> "" ->
  url_parse (host_of env) = Throw e ->
  load env = (Throw e, state_of (config_56 env a) [(host_line env)]).
Proof.
  intros Hen Hau Hne Hp. unfold load, initializeConfig, bind at 1.
  rewrite resolve_host_run.
  assert (Hg : getenv env BROWSERSTACK_AUTH = JStr a)
    by (unfold getenv; rewrite Hau; reflexivity).
  unfold read_browserstack, detect_local, parse_value, receiver, lift, bind, assign,
    read_config, print, throw, ret.
  simpl. fold (enabled_of env). rewrite Hen, Hg. simpl.
  destruct (String.eqb_spec a ""); [contradiction|]. simpl.
  rewrite Hen, Hp. reflexivity.
Qed.

Lemma load_parsed (a : string) (u : Url) :
  truthy (enabled_of env) = true ->
  env !! BROWSERSTACK_AUTH = Some a -> a <> "" ->
  url_parse (host_of env) = Normal u ->
  load env = (Normal tt, state_of (config_86 env a u) ((host_line env) :: port_lines u)).
Proof.
  intros Hen Hau Hne Hp. unfold load, initializeConfig, bind at 1.
  rewrite resolve_host_run.
  assert (Hg : getenv env BROWSERSTACK_AUTH = JStr a)
    by (unfold getenv; rewrite Hau; reflexivity).
  unfold read_browserstack, detect_local, swap_host, check_port, parse_value, receiver,
    lift, bind, assign, read_config, print, throw, ret.
  simpl. fold (enabled_of env). rewrite Hen, Hg. simpl.
  destruct (String.eqb_spec a ""); [contradiction|]. simpl.
  rewrite Hen, Hp. simpl.
  unfold config_86, port_lines, config_56.
  destruct (includes ["localhost"; "127.0.0.1"] (hostname u)) eqn:Hloc; simpl.
  - destruct (negb (strict_eq (port u) (JStr expectedPort)));
      simpl; rewrite Hp; reflexivity.
  - reflexivity.
Qed.

(** Every load ends in one of the four ways. *)
Lemma load_cases : LoadCase env.
Proof.
  destruct (truthy (enabled_of env)) eqn:Hen.
  - destruct (env !! BROWSERSTACK_AUTH) as [a|] eqn:Hau.
    + destruct (String.eqb_spec a "") as [->|Hne].
      * apply CaseNoAuth; [exact Hen| |apply load_no_auth; [exact Hen|]];
          unfold getenv; rewrite Hau; reflexivity.
      * destruct (url_parse (host_of env)) as [u|e] eqn:Hp.
        -- eapply CaseParsed; eauto using load_parsed.
        -- eapply CaseParseThrows; eauto using load_parse_throws.
    + apply CaseNoAuth; [exact Hen| |apply load_no_auth; [exact Hen|]];
        unfold getenv; rewrite Hau; reflexivity.
  - apply CaseDisabled; [exact Hen|]. apply load_disabled. exact Hen.
Qed.

End LoadFacts.

(** ** Strings *)

Lemma append_cons (c : ascii) (a b : string) : String c a +:+ b = String c (a +:+ b).
Proof. reflexivity. Qed.

Lemma append_empty_l (b : string) : "" +:+ b = b.
Proof. reflexivity. Qed.

Lemma append_empty_r (s : string) : s +:+ "" = s.
Proof.
  induction s as [|c s IH]; [reflexivity|].
  rewrite append_cons, IH. reflexivity.
Qed.

Lemma append_snoc (a : string) (c : ascii) (b : string) :
  (a +:+ String c "") +:+ b = a +:+ String c b.
Proof.
  induction a as [|d a IH]; [reflexivity|].
  rewrite !append_cons, IH. reflexivity.
Qed.

Lemma separator_here_other (d : ascii) (s : string) :
  Ascii.eqb ":" d = false -> separator_here (String d s) = false.
Proof.
  intros Hd. destruct (Ascii.eqb_spec ":" d) as [|Hne]; [discriminate|].
  unfold separator_here.
  destruct d as [[] [] [] [] [] [] [] []]; try reflexivity. congruence.
Qed.

Lemma separator_here_colon (c : ascii) (s : string) :
  separator_here (String ":" (String c s)) = negb (is_line_terminator c).
Proof. reflexivity. Qed.

Lemma until_line_terminator_free (k : string) :
  has_line_terminator k = false -> until_line_terminator k = k.
Proof.
  induction k as [|c k IH]; simpl; [reflexivity|].
  unfold has_line_terminator in *. simpl.
  destruct (is_line_terminator c); simpl; [discriminate|].
  intros Hk. rewrite IH by exact Hk. reflexivity.
Qed.

Lemma until_line_terminator_clean (k : string) :
  has_line_terminator (until_line_terminator k) = false.
Proof.
  unfold has_line_terminator.
  induction k as [|c k IH]; simpl; [reflexivity|].
  destruct (is_line_terminator c) eqn:Hc; simpl; [reflexivity|].
  rewrite Hc. exact IH.
Qed.

(** ** The direct recursion finds what the split loop finds *)

Lemma split_loop_first (s piece : string) :
  match first_separator s with
  | Some (u, k) =>
      exists rest : list JsVal,
        split_loop piece s = JStr (piece +:+ u) :: JStr k :: rest
  | None => split_loop piece s = [JStr (piece +:+ s)]
  end.
Proof.
  revert piece. induction s as [|c s IH]; intros piece.
  - simpl. simp split_loop. rewrite append_empty_r. reflexivity.
  - rewrite split_loop_cons, exec_colon_rest_here.
    cbn [first_separator].
    destruct (separator_here (String c s)) eqn:Hs.
    + cbn beta iota. rewrite append_empty_r. eexists. reflexivity.
    + specialize (IH (piece +:+ String c "")).
      destruct (first_separator s) as [[u k]|].
      * destruct IH as [rest IH]. exists rest. rewrite IH, append_snoc. reflexivity.
      * rewrite IH, append_snoc. reflexivity.
Qed.

Lemma split_credentials (a : string) :
  (array_get (split_colon_rest (trim a)) 0, array_get (split_colon_rest (trim a)) 1) =
  credentials a.
Proof.
  unfold credentials, split_colon_rest.
  pose proof (split_loop_first (trim a) "") as Hs.
  destruct (first_separator (trim a)) as [[u k]|].
  - destruct Hs as [rest ->]. reflexivity.
  - rewrite Hs. reflexivity.
Qed.

Lemma first_separator_sound (s u k : string) :
  first_separator s = Some (u, k) ->
  k <> "" /\ has_line_terminator k = false /\
  exists r : string, s = u +:+ ":" +:+ k +:+ r.
Proof.
  revert u. induction s as [|c s IH]; intros u; [discriminate|].
  cbn [first_separator].
  destruct (separator_here (String c s)) eqn:Hs.
  - intros [= <- <-].
    destruct (Ascii.eqb_spec ":" c) as [<-|Hne].
    + destruct s as [|d s]; [discriminate|].
      rewrite separator_here_colon in Hs.
      apply negb_true_iff in Hs.
      split; [simpl; rewrite Hs; discriminate|].
      split; [apply until_line_terminator_clean|].
      clear IH Hs. generalize (String d s). clear. intros t.
      enough (exists r : string, t = until_line_terminator t +:+ r) as [r Hr]
        by (exists r; rewrite append_empty_l, append_cons, append_empty_l, <- Hr;
            reflexivity).
      induction t as [|e t [r IH]]; simpl.
      * exists "". reflexivity.
      * destruct (is_line_terminator e).
        -- exists (String e t). reflexivity.
        -- exists r. rewrite append_cons, <- IH. reflexivity.
    + rewrite separator_here_other in Hs; [discriminate|].
      destruct (Ascii.eqb_spec ":" c); congruence.
  - destruct (first_separator s) as [[u' k']|]; [|discriminate].
    intros [= <- <-].
    destruct (IH u' eq_refl) as (Hk & Hl & r & ->).
    split; [exact Hk|]. split; [exact Hl|]. exists r. reflexivity.
Qed.

Lemma first_separator_colon_free (u : string) (c : ascii) (k : string) :
  has_colon u = false -> is_line_terminator c = false ->
  first_separator (u +:+ ":" +:+ String c k) =
  Some (u, until_line_terminator (String c k)).
Proof.
  intros Hu Hc. induction u as [|d u IH].
  - rewrite append_empty_l, append_cons, append_empty_l.
    cbn [first_separator].
    rewrite separator_here_colon, Hc. reflexivity.
  - unfold has_colon in Hu. simpl in Hu. apply orb_false_iff in Hu as [Hd Hu].
    rewrite append_cons. cbn [first_separator].
    rewrite separator_here_other by exact Hd.
    rewrite IH by exact Hu. reflexivity.
Qed.

Lemma first_separator_none (s : string) :
  has_colon s = false -> first_separator s = None.
Proof.
  induction s as [|d s IH]; [reflexivity|].
  unfold has_colon. simpl. intros Hs. apply orb_false_iff in Hs as [Hd Hs].
  cbn [first_separator]. rewrite separator_here_other by exact Hd.
  rewrite IH by exact Hs. reflexivity.
Qed.

(** ** Where the load leaves the configuration *)

Section LoadResults.
Context `{UrlModule}.
Variable env : Env.

Lemma enabled_of_cases :
  match env !! USE_BROWSERSTACK with
  | None => enabled_of env = JUndefined
  | Some v =>
      if String.eqb v "" then enabled_of env = JStr ""
      else enabled_of env = JBool (negb (String.eqb v "false"))
  end.
Proof.
  unfold enabled_of, js_and, getenv.
  destruct (env !! USE_BROWSERSTACK) as [v|]; [|reflexivity].
  simpl. destruct (String.eqb_spec v "") as [->|Hv]; [reflexivity|].
  simpl. unfold strict_eq.
  destruct (String.eqb_spec v "false") as [->|Hf].
  - rewrite bool_decide_eq_true_2; reflexivity.
  - rewrite bool_decide_eq_false_2; [reflexivity|congruence].
Qed.

Lemma enabled_of_true :
  enabled_of env = JBool true <->
  exists v : string, env !! USE_BROWSERSTACK = Some v /\ v <> "" /\ v <> "false".
Proof.
  pose proof enabled_of_cases as Hc.
  destruct (env !! USE_BROWSERSTACK) as [v|].
  - destruct (String.eqb_spec v "") as [Hv|Hv]; rewrite Hc.
    + split; [discriminate|]. intros (w & Hw & ? & _). congruence.
    + destruct (String.eqb_spec v "false") as [Hf|Hf]; simpl.
      * split; [discriminate|]. intros (w & Hw & _ & ?). congruence.
      * split; [|reflexivity]. intros _. exists v. auto.
  - rewrite Hc. split; [discriminate|]. intros (w & [=] & _).
Qed.

Lemma enabled_of_truthy : truthy (enabled_of env) = true <-> enabled_of env = JBool true.
Proof.
  pose proof enabled_of_cases as Hc.
  destruct (env !! USE_BROWSERSTACK) as [v|].
  - destruct (String.eqb v ""); rewrite Hc; simpl.
    + split; discriminate.
    + destruct (negb (String.eqb v "false")); simpl; split; congruence.
  - rewrite Hc. simpl. split; discriminate.
Qed.


Lemma load_enabled :
  enabled (browserStack (config (snd (load env)))) = enabled_of env.
Proof.
  destruct (load_cases env) as [? ->|? ? ->|? ? ? ? ? ? ->|a u ? ? ? ? ->];
    try reflexivity.
  unfold config_86. simpl.
  destruct (includes _ _); reflexivity.
Qed.

(** A load that returns took the first or the last of the four ways. *)
Lemma load_returns (st : State) :
  load env = (Normal tt, st) ->
  (truthy (enabled_of env) = false /\ st = state_of (config_47 env) [host_line env]) \/
  (exists (a : string) (u : Url),
      truthy (enabled_of env) = true /\
      env !! BROWSERSTACK_AUTH = Some a /\ a <> "" /\
      url_parse (host_of env) = Normal u /\
      st = state_of (config_86 env a u) (host_line env :: port_lines u)).
Proof.
  intros Hl.
  destruct (load_cases env) as [? E|? ? E|? ? ? ? ? ? E|a u ? ? ? ? E];
    rewrite E in Hl; try discriminate; injection Hl as <-.
  - left. auto.
  - right. exists a, u. auto.
Qed.

Lemma config_86_credentials (a : string) (u : Url) :
  (user (browserStack (config_86 env a u)), key (browserStack (config_86 env a u))) =
  credentials a.
Proof.
  rewrite <- split_credentials. unfold config_86.
  destruct (includes _ _); reflexivity.
Qed.

End LoadResults.

(** ** The configuration after the load *)

Lemma includes_local (v : JsVal) :
  includes ["localhost"; "127.0.0.1"] v = true <->
  (v = JStr "localhost" \/ v = JStr "127.0.0.1").
Proof.
  unfold includes, strict_eq. simpl.
  rewrite !orb_true_iff, !bool_decide_eq_true. intuition congruence.
Qed.



(** C9.  [config.browserStack.enabled] is [true] exactly when
    USE_BROWSERSTACK is set to a string that is neither empty nor the
    string "false"; it is truthy in no other case: unset leaves it
    [undefined], the empty string leaves it empty, and "false" makes it
    [false].  This holds however the load ends. *)
Theorem enabled_flag_from_env `{UrlModule} (env : Env) :
  let flag := enabled (browserStack (config (snd (load env)))) in
  (flag = JBool true <->
   exists v : string, env !! USE_BROWSERSTACK = Some v /\ v <> "" /\ v <> "false") /\
  (truthy flag = true <-> flag = JBool true) /\
  (env !! USE_BROWSERSTACK = None -> flag = JUndefined) /\
  (env !! USE_BROWSERSTACK = Some "" -> flag = JStr "") /\
  (env !! USE_BROWSERSTACK = Some "false" -> flag = JBool false).
Proof.
  intros flag. subst flag. rewrite load_enabled.
  split; [apply enabled_of_true|]. split; [apply enabled_of_truthy|].
  pose proof (enabled_of_cases env) as Hc.
  repeat split; intros Hv; rewrite Hv in Hc; exact Hc.
Qed.


(** C3.  After a load that returns: if cloud mode is enabled and the
    hostname of the parsed host URL is "localhost" or "127.0.0.1", the
    local-tunnel flag is [true] and the host URL is what [url.format]
    makes of the parsed URL with its hostname set to "bs-local.com" and
    its host cleared, every other component as parsed; if cloud mode is
    disabled or the hostname is another one, the host URL is the resolved
    one and the flag is [false].  With cloud mode enabled the host URL
    did parse, so one of the two cases applies. *)
Theorem local_host_rewritten `{UrlModule} (env : Env) (st : State) :
  load env = (Normal tt, st) ->
  let cfg := config st in
  let cloud := truthy (enabled (browserStack cfg)) in
  (forall u : Url,
      cloud = true -> url_parse (host_of env) = Normal u ->
      hostname u = JStr "localhost" \/ hostname u = JStr "127.0.0.1" ->
      localEnabled (browserStack cfg) = JBool true /\
      exists u' : Url,
        browserHostUrl cfg = JStr (url_format u') /\
        hostname u' = JStr "bs-local.com" /\ host u' = JUndefined /\
        protocol u' = protocol u /\ slashes u' = slashes u /\ auth u' = auth u /\
        port u' = port u /\ pathname u' = pathname u /\ search u' = search u /\
        hash u' = hash u /\ query u' = query u /\ path u' = path u /\
        href u' = href u) /\
  (cloud = false \/
   (exists u : Url,
       url_parse (host_of env) = Normal u /\
       hostname u <> JStr "localhost" /\ hostname u <> JStr "127.0.0.1") ->
   browserHostUrl cfg = JStr (host_of env) /\
   localEnabled (browserStack cfg) = JBool false) /\
  (cloud = true -> exists u : Url, url_parse (host_of env) = Normal u).
Proof.
  intros Hl cfg cloud. subst cfg cloud.
  pose proof (load_enabled env) as Hen. rewrite Hl in Hen. simpl in Hen. rewrite Hen.
  destruct (load_returns env st Hl) as [[Hoff ->]|(a & u & Hon & Ha & Hne & Hp & ->)].
  - rewrite Hoff. repeat split; try discriminate.
  - rewrite Hon. unfold config_86. split; [|split].
    + intros u0 _ Hp0 Hh. rewrite Hp in Hp0. injection Hp0 as <-.
      apply includes_local in Hh. rewrite Hh. simpl.
      split; [reflexivity|].
      exists (set_hostname_host u (JStr "bs-local.com") JUndefined).
      repeat split; reflexivity.
    + intros [|(u0 & Hp0 & Hh1 & Hh2)]; [discriminate|].
      rewrite Hp in Hp0. injection Hp0 as <-.
      destruct (includes ["localhost"; "127.0.0.1"] (hostname u)) eqn:Hi.
      * apply includes_local in Hi. tauto.
      * split; reflexivity.
    + intros _. exists u. exact Hp.
Qed.


(** The credentials a returning load with cloud mode enabled stores. *)
Lemma load_credentials `{UrlModule} (env : Env) (st : State) :
  load env = (Normal tt, st) ->
  truthy (enabled (browserStack (config st))) = true ->
  exists a : string,
    env !! BROWSERSTACK_AUTH = Some a /\ a <> "" /\
    (user (browserStack (config st)), key (browserStack (config st))) = credentials a.
Proof.
  intros Hl Hon.
  pose proof (load_enabled env) as Hen. rewrite Hl in Hen. simpl in Hen.
  rewrite Hen in Hon.
  destruct (load_returns env st Hl) as [[Hoff _]|(a & u & _ & Ha & Hne & _ & ->)].
  - congruence.
  - exists a. split; [exact Ha|]. split; [exact Hne|]. apply config_86_credentials.
Qed.

(** C10, as amended.  After a load that returns with cloud mode enabled,
    the credentials are split off the trimmed BROWSERSTACK_AUTH at its
    first colon that a character other than a line terminator follows:
    the user is the text before that colon, the key the text after it up
    to the next line terminator; without such a colon the user is the
    whole trimmed string and the key is [undefined].  So with no colon
    before it, a colon followed by such a character splits, and a key
    without line terminators is kept whole, colons included; and a string
    without a colon is the user. *)
Theorem credentials_split_at_separator `{UrlModule} (env : Env) (st : State) :
  load env = (Normal tt, st) ->
  truthy (enabled (browserStack (config st))) = true ->
  exists a : string,
    env !! BROWSERSTACK_AUTH = Some a /\
    let s := trim a in
    let usr := user (browserStack (config st)) in
    let ky := key (browserStack (config st)) in
    (usr, ky) = match first_separator s with
                | Some (u, k) => (JStr u, JStr k)
                | None => (JStr s, JUndefined)
                end /\
    (forall (u : string) (c : ascii) (k : string),
        s = u +:+ ":" +:+ String c k ->
        has_colon u = false -> is_line_terminator c = false ->
        usr = JStr u /\ ky = JStr (until_line_terminator (String c k))) /\
    (forall u k : string,
        s = u +:+ ":" +:+ k ->
        has_colon u = false -> k <> "" -> has_line_terminator k = false ->
        usr = JStr u /\ ky = JStr k) /\
    (has_colon s = false -> usr = JStr s /\ ky = JUndefined).
Proof.
  intros Hl Hon.
  destruct (load_credentials env st Hl Hon) as (a & Ha & _ & Hc).
  exists a. split; [exact Ha|].
  intros s usr ky. subst s usr ky. unfold credentials in Hc.
  split; [exact Hc|].
  assert (Hsplit : forall (u : string) (c : ascii) (k : string),
             trim a = u +:+ ":" +:+ String c k ->
             has_colon u = false -> is_line_terminator c = false ->
             user (browserStack (config st)) = JStr u /\
             key (browserStack (config st)) = JStr (until_line_terminator (String c k))).
  { intros u c k Hs Hu Hlt.
    rewrite Hs, (first_separator_colon_free u c k Hu Hlt) in Hc.
    injection Hc as -> ->. split; reflexivity. }
  split; [exact Hsplit|]. split.
  - intros u k Hs Hu Hk Hlt. destruct k as [|c k]; [congruence|].
    rewrite <- (until_line_terminator_free (String c k) Hlt).
    apply Hsplit; [exact Hs|exact Hu|].
    unfold has_line_terminator in Hlt. simpl in Hlt.
    apply orb_false_iff in Hlt. tauto.
  - intros Hs. rewrite (first_separator_none _ Hs) in Hc.
    injection Hc as -> ->. split; reflexivity.
Qed.

(** C4, as amended.  After a load that returns with cloud mode enabled,
    BROWSERSTACK_AUTH is a string that is not empty, the user is a string
    and the key is [undefined] or a string that is not empty; both are
    present exactly when the trimmed BROWSERSTACK_AUTH has a colon
    followed by a character other than a line terminator and the first
    such colon has text before it, as in "user:key" with a user that is
    not empty and has no colon and a key that starts with such a
    character. *)
Theorem credentials_when_enabled `{UrlModule} (env : Env) (st : State) :
  load env = (Normal tt, st) ->
  truthy (enabled (browserStack (config st))) = true ->
  exists a : string,
    env !! BROWSERSTACK_AUTH = Some a /\ a <> "" /\
    (exists u : string, user (browserStack (config st)) = JStr u) /\
    (key (browserStack (config st)) = JUndefined \/ present (key (browserStack (config st)))) /\
    (credentials_present (config st) <->
     exists u k : string, first_separator (trim a) = Some (u, k) /\ u <> "") /\
    (forall (u : string) (c : ascii) (k : string),
        trim a = u +:+ ":" +:+ String c k ->
        u <> "" -> has_colon u = false -> is_line_terminator c = false ->
        credentials_present (config st)).
Proof.
  intros Hl Hon.
  destruct (load_credentials env st Hl Hon) as (a & Ha & Hne & Hc).
  exists a. split; [exact Ha|]. split; [exact Hne|].
  unfold credentials in Hc. unfold credentials_present, present.
  assert (Hiff : (exists s, user (browserStack (config st)) = JStr s /\ s <> "") /\
                 (exists s, key (browserStack (config st)) = JStr s /\ s <> "") <->
                 exists u k : string, first_separator (trim a) = Some (u, k) /\ u <> "").
  { destruct (first_separator (trim a)) as [[u k]|] eqn:Hf; injection Hc as -> ->.
    - destruct (first_separator_sound _ _ _ Hf) as (Hk & _).
      split.
      + intros [(s & [= <-] & Hs) _]. exists u, k. auto.
      + intros (u' & k' & [= <- <-] & Hu). split; eauto.
    - split.
      + intros [_ (s & [=] & _)].
      + intros (u' & k' & [=] & _). }
  split; [|split; [|split; [exact Hiff|]]].
  - destruct (first_separator (trim a)) as [[u k]|]; injection Hc as -> _; eauto.
  - destruct (first_separator (trim a)) as [[u k]|] eqn:Hf; injection Hc as _ ->.
    + right. destruct (first_separator_sound _ _ _ Hf) as (Hk & _). eauto.
    + left. reflexivity.
  - intros u c k Hs Hu Hcol Hlt. apply Hiff.
    exists u, (until_line_terminator (String c k)). split; [|exact Hu].
    rewrite Hs. apply first_separator_colon_free; assumption.
Qed.

(** The load of [env_localhost] with the sample url module. *)
Lemma load_env_localhost :
  @load SampleUrl.module env_localhost =
  (Normal tt,
   {| config :=
        {| browserHostUrl := JStr "http://bs-local.com:5757/auth";
           browserStack := {| enabled := JBool true; user := JStr "alice";
                              key := JStr "s3:cr3t"; localEnabled := JBool true |} |};
      console := [(LLog, "Running e2e tests against endpoint http://localhost:5757/auth")];
      blockStackLocalInstance := None; trace := [] |}).
Proof. vm_compute. reflexivity. Qed.

(** C3, at [env_localhost]: the load returns, and the flag is set. *)
Lemma local_host_rewritten_witness :
  @load SampleUrl.module env_localhost =
    (Normal tt, snd (@load SampleUrl.module env_localhost)) /\
  localEnabled (browserStack (config (snd (@load SampleUrl.module env_localhost)))) =
    JBool true.
Proof.
  assert (Hl : @load SampleUrl.module env_localhost =
               (Normal tt, snd (@load SampleUrl.module env_localhost)))
    by (vm_compute; reflexivity).
  split; [exact Hl|].
  destruct (@local_host_rewritten SampleUrl.module env_localhost _ Hl) as [Hlocal _].
  assert (Hp : exists u : Url,
             @url_parse SampleUrl.module (host_of env_localhost) = Normal u /\
             hostname u = JStr "localhost")
    by (eexists; split; vm_compute; reflexivity).
  destruct Hp as (u & Hp & Hh).
  refine (proj1 (Hlocal u _ Hp (or_introl Hh))).
  vm_compute. reflexivity.
Defined.

(** C4 as stated fails: with BROWSERSTACK_AUTH set to "useronly" the load
    returns with cloud mode enabled and no key. *)
Lemma key_missing_without_colon :
  fst (@load SampleUrl.module env_user_only) = Normal tt /\
  truthy (enabled (browserStack (config (snd (@load SampleUrl.module env_user_only))))) = true /\
  key (browserStack (config (snd (@load SampleUrl.module env_user_only)))) = JUndefined /\
  ~ credentials_present (config (snd (@load SampleUrl.module env_user_only))).
Proof.
  split; [vm_compute; reflexivity|]. split; [vm_compute; reflexivity|].
  split; [vm_compute; reflexivity|].
  intros [_ (s & Hs & _)]. vm_compute in Hs. discriminate.
Qed.

(** C4, at [env_localhost]: both credentials are present. *)
Lemma credentials_when_enabled_witness :
  @load SampleUrl.module env_localhost =
    (Normal tt, snd (@load SampleUrl.module env_localhost)) /\
  truthy (enabled (browserStack (config (snd (@load SampleUrl.module env_localhost))))) = true /\
  credentials_present (config (snd (@load SampleUrl.module env_localhost))).
Proof.
  assert (Hl : @load SampleUrl.module env_localhost =
               (Normal tt, snd (@load SampleUrl.module env_localhost)))
    by (vm_compute; reflexivity).
  assert (Hon : truthy (enabled (browserStack
                  (config (snd (@load SampleUrl.module env_localhost))))) = true)
    by (vm_compute; reflexivity).
  split; [exact Hl|]. split; [exact Hon|].
  destruct (@credentials_when_enabled SampleUrl.module env_localhost _ Hl Hon)
    as (a & Ha & _ & _ & _ & _ & Hform).
  vm_compute in Ha. injection Ha as <-.
  apply (Hform "alice" "s"%char "3:cr3t").
  - vm_compute. reflexivity.
  - discriminate.
  - vm_compute. reflexivity.
  - vm_compute. reflexivity.
Defined.

(** C10 as stated fails: "user:" has the text "user" before its first
    colon, yet the user stored is the whole string and no key is. *)
Lemma trailing_colon_not_split :
  fst (@load SampleUrl.module env_trailing_colon) = Normal tt /\
  user (browserStack (config (snd (@load SampleUrl.module env_trailing_colon)))) =
    JStr "user:" /\
  key (browserStack (config (snd (@load SampleUrl.module env_trailing_colon)))) =
    JUndefined /\
  ~ splits_at_first_colon (trim "user:")
      (user (browserStack (config (snd (@load SampleUrl.module env_trailing_colon)))))
      (key (browserStack (config (snd (@load SampleUrl.module env_trailing_colon))))).
Proof.
  split; [vm_compute; reflexivity|]. split; [vm_compute; reflexivity|].
  split; [vm_compute; reflexivity|].
  intros [Hsplit _].
  destruct (Hsplit "user" "" eq_refl eq_refl) as [Hu _].
  vm_compute in Hu. discriminate.
Qed.

(** C10, at [env_localhost]: the key keeps its colon. *)
Lemma credentials_split_at_separator_witness :
  @load SampleUrl.module env_localhost =
    (Normal tt, snd (@load SampleUrl.module env_localhost)) /\
  truthy (enabled (browserStack (config (snd (@load SampleUrl.module env_localhost))))) = true /\
  user (browserStack (config (snd (@load SampleUrl.module env_localhost)))) = JStr "alice" /\
  key (browserStack (config (snd (@load SampleUrl.module env_localhost)))) = JStr "s3:cr3t".
Proof.
  assert (Hl : @load SampleUrl.module env_localhost =
               (Normal tt, snd (@load SampleUrl.module env_localhost)))
    by (vm_compute; reflexivity).
  assert (Hon : truthy (enabled (browserStack
                  (config (snd (@load SampleUrl.module env_localhost))))) = true)
    by (vm_compute; reflexivity).
  split; [exact Hl|]. split; [exact Hon|].
  destruct (@credentials_split_at_separator SampleUrl.module env_localhost _ Hl Hon)
    as (a & Ha & _ & _ & Hform & _).
  vm_compute in Ha. injection Ha as <-.
  apply (Hform "alice" "s3:cr3t").
  - vm_compute. reflexivity.
  - vm_compute. reflexivity.
  - discriminate.
  - vm_compute. reflexivity.
Defined.

(** Only the exact string "false" switches cloud mode off. *)
Example enabled_for_capital_False :
  enabled (browserStack (config (snd
    (@load SampleUrl.module (make_env None (Some "False") (Some "u:k")))))) = JBool true.
Proof. vm_compute. reflexivity. Qed.

Example enabled_for_zero :
  enabled (browserStack (config (snd
    (@load SampleUrl.module (make_env None (Some "0") (Some "u:k")))))) = JBool true.
Proof. vm_compute. reflexivity. Qed.

Example disabled_for_false :
  @load SampleUrl.module (make_env None (Some "false") None) =
  (Normal tt,
   {| config :=
        {| browserHostUrl := JStr "https://browser.blockstack.org";
           browserStack := {| enabled := JBool false; user := JStr "";
                              key := JStr ""; localEnabled := JBool false |} |};
      console := [(LWarn, host_not_set_warning)];
      blockStackLocalInstance := None; trace := [] |}).
Proof. vm_compute. reflexivity. Qed.

(** A local host without a port: the warning names the port [null]. *)
Example port_warning_without_port :
  console (snd (@load SampleUrl.module
                  (make_env (Some "http://localhost/") (Some "true") (Some "u:k")))) =
  [(LLog, "Running e2e tests against endpoint http://localhost/");
   (LWarn, port_warning JNull)].
Proof. vm_compute. reflexivity. Qed.

(** ** The hooks *)

Section HookFacts.
Variable w : World.


Lemma afterEach_hook_skips (state : JsVal) (driver : DriverCell) (st : State) :
  strict_eq state (JStr "failed") && has_screenshot driver = false ->
  afterEach_hook w state driver st = (Normal tt, st).
Proof.
  intros Hg. unfold afterEach_hook, try_catch, ret. rewrite Hg. reflexivity.
Qed.

(** The state after the directory check: the call made, if any, and
    whether it threw. *)
Lemma afterEach_hook_runs (state : JsVal) (driver : DriverCell) (st : State) :
  strict_eq state (JStr "failed") && has_screenshot driver = true ->
  afterEach_hook w state driver st =
  (Normal tt,
   let made :=
     if existsSync w (errDir w) then [] else [FsMkdir (errDir w)] in
   match (if existsSync w (errDir w) then Normal tt else mkdirSync w (errDir w)) with
   | Throw err =>
       {| config := config st;
          console := console st ++ [(LWarn, screenshot_warning err)];
          blockStackLocalInstance := blockStackLocalInstance st;
          trace := trace st ++ made |}
   | Normal _ =>
       {| config := config st;
          console :=
            console st ++
            [match screenshot w (screenshotFile w) with
             | Normal Fulfilled =>
                 (LLog, "screenshot for failure saved to " +:+ screenshotFile w)
             | Normal (Rejected err) | Throw err => (LWarn, screenshot_warning err)
             end];
          blockStackLocalInstance := blockStackLocalInstance st;
          trace := trace st ++ made ++ [DriverScreenshot (screenshotFile w)] |}
   end).
Proof.
  intros Hg. unfold afterEach_hook, try_catch, bind, emit, lift, print, ret.
  rewrite Hg. destruct st as [c l i t]. simpl.
  destruct (existsSync w (errDir w)); simpl.
  - destruct (screenshot w (screenshotFile w)) as [[|err]|err]; reflexivity.
  - destruct (mkdirSync w (errDir w)) as [[]|err]; simpl; [|reflexivity].
    rewrite <- app_assoc.
    destruct (screenshot w (screenshotFile w)) as [[|err]|err]; reflexivity.
Qed.

Lemma suite_after_run (driver : DriverCell) (st : State) :
  suite_after w driver st =
  (Normal tt,
   if has_quit driver then
     {| config := config st;
        console :=
          console st ++
          match quit w with
          | Normal Fulfilled => []
          | Normal (Rejected err) | Throw err =>
              [(LWarn, "Error disposing driver after tests: " +:+ error_to_string err)]
          end;
        blockStackLocalInstance := blockStackLocalInstance st;
        trace := trace st ++ [DriverQuit] |}
   else st).
Proof.
  unfold suite_after, try_catch, bind, emit, lift, print, await, ret, throw.
  destruct st as [c l i t]. simpl.
  destruct (has_quit driver); [|reflexivity]. simpl.
  destruct (quit w) as [[|err]|err]; simpl; rewrite ?app_nil_r; reflexivity.
Qed.

Lemma root_before_run (st : State) :
  root_before w st =
  if truthy (localEnabled (browserStack (config st))) then
    (match start_error w with
     | Some error => Throw error
     | None => Normal tt
     end,
     {| config := config st;
        console :=
          console st ++
          [(LLog, "BrowserStack is enabled the test endpoint is localhost, setting up BrowserStack Local..");
           match start_error w with
           | Some error =>
               (LError, "Error starting BrowserStack Local: " +:+ error_to_string error)
           | None => (LLog, "BrowserStack Local started")
           end];
        blockStackLocalInstance :=
          Some {| isRunning := match start_error w with Some _ => false | None => true end |};
        trace :=
          trace st ++
          [TunnelNew; TunnelStart (key (browserStack (config st)));
           TunnelStarted (start_error w)] |})
  else (Normal tt, st).
Proof.
  unfold root_before, start_promise, bind, read_config, emit, print, assign_instance,
    await, ret, throw.
  destruct st as [c l i t]. simpl.
  destruct (truthy (localEnabled (browserStack c))); [|reflexivity].
  destruct (start_error w) as [error|]; simpl;
    rewrite <- !app_assoc; reflexivity.
Qed.

Lemma root_after_run (st : State) :
  root_after w st =
  match blockStackLocalInstance st with
  | Some {| isRunning := true |} =>
      (match stop_error w with
       | Some error => Throw error
       | None => Normal tt
       end,
       {| config := config st;
          console :=
            console st ++
            match stop_error w with
            | Some error =>
                [(LError, "Error stopping BrowserStack Local: " +:+ error_to_string error)]
            | None => []
            end;
          blockStackLocalInstance :=
            match stop_error w with
            | Some _ => blockStackLocalInstance st
            | None => Some {| isRunning := false |}
            end;
          trace := trace st ++ [TunnelStop; TunnelStopped (stop_error w)] |})
  | _ => (Normal tt, st)
  end.
Proof.
  unfold root_after, stop_promise, bind, read_instance, emit, print, assign_instance,
    await, ret, throw.
  destruct st as [c l i t]. simpl.
  destruct i as [[[|]]|]; try reflexivity.
  destruct (stop_error w) as [error|]; simpl;
    rewrite <- ?app_assoc, ?app_nil_r; reflexivity.
Qed.

End HookFacts.




(** ** Seconds as a 32-bit integer *)





(** An ordinary failure: the screenshot of a failed test in [calm_world]. *)
Example screenshot_in_calm_world :
  afterEach_hook calm_world (JStr "failed") full_driver state0 =
  (Normal tt,
   {| config := config0;
      console :=
        [(LLog, "screenshot for failure saved to /tmp/selenium-errors/screenshot-1700000000-k3x9qa.png")];
      blockStackLocalInstance := None;
      trace := [FsMkdir "/tmp/selenium-errors";
                DriverScreenshot "/tmp/selenium-errors/screenshot-1700000000-k3x9qa.png"] |}).
Proof. vm_compute. reflexivity. Qed.

(** ** The life of the tunnel *)

Lemma run_suites_run (titles : list string) (st : State) :
  run_suites titles st =
  (Normal tt,
   {| config := config st; console := console st;
      blockStackLocalInstance := blockStackLocalInstance st;
      trace := trace st ++ map SuiteRun titles |}).
Proof.
  revert st. induction titles as [|t ts IH]; intros st.
  - simpl. unfold ret. rewrite app_nil_r. destruct st; reflexivity.
  - simpl. unfold bind, emit. rewrite IH. simpl. rewrite <- app_assoc. reflexivity.
Qed.

Lemma mocha_run_trace (w : World) (suites : list string) (st : State) :
  blockStackLocalInstance st = None -> trace st = [] ->
  trace (mocha_run w suites st) = run_trace w (config st) suites.
Proof.
  intros Hi Ht. unfold mocha_run, run_trace.
  rewrite root_before_run.
  destruct (truthy (localEnabled (browserStack (config st)))).
  - destruct (start_error w) as [error|].
    + rewrite root_after_run. simpl. rewrite Ht. reflexivity.
    + rewrite run_suites_run, root_after_run. simpl. rewrite Ht.
      rewrite <- !app_assoc. reflexivity.
  - rewrite run_suites_run, root_after_run. simpl. rewrite Hi, Ht. reflexivity.
Qed.

Lemma load_leaves_tunnel `{UrlModule} (env : Env) :
  blockStackLocalInstance (snd (load env)) = None /\ trace (snd (load env)) = [].
Proof.
  destruct (load_cases env) as [? ->|? ? ->|? ? ? ? ? ? ->|? ? ? ? ? ? ->];
    split; reflexivity.
Qed.

Lemma process_trace `{UrlModule} (env : Env) (w : World) (suites : list string) :
  trace (process env w suites) =
  match fst (load env) with
  | Normal _ => run_trace w (config (snd (load env))) suites
  | Throw _ => []
  end.
Proof.
  unfold process. destruct (load_leaves_tunnel env) as [Hi Ht].
  destruct (load env) as [[[]|e] st]; simpl in *.
  - apply mocha_run_trace; assumption.
  - exact Ht.
Qed.







(** ** Registering the suites *)

Lemma browserstack_environment_description (cfg : Config) (user key : JsVal)
    (i : nat) (capability : Capability) :
  snd (browserstack_environment cfg user key i capability) =
  {| description := prop capability "desc";
     createDriver := UsingServer BROWSERSTACK_HUB_URL i |}.
Proof.
  unfold browserstack_environment. cbn [snd]. f_equal.
  unfold prop.
  destruct (truthy (localEnabled (browserStack cfg)));
    rewrite ?lookup_insert_ne by discriminate; reflexivity.
Qed.

Lemma browserstack_loop_lookup (cfg : Config) (user key : JsVal)
    (caps : list Capability) (n i : nat) (c : Capability) :
  caps !! i = Some c ->
  snd (browserstack_loop cfg user key n caps) !! i =
  Some {| description := prop c "desc";
          createDriver := UsingServer BROWSERSTACK_HUB_URL (n + i) |}.
Proof.
  revert n i. induction caps as [|c0 rest IH]; intros n i Hc; [discriminate|].
  cbn [browserstack_loop].
  pose proof (browserstack_environment_description cfg user key n c0) as Hd.
  destruct (browserstack_environment cfg user key n c0) as [c0' e].
  destruct (browserstack_loop cfg user key (S n) rest) as [rest' es] eqn:Hloop.
  cbn [snd] in *. destruct i as [|i]; simpl in *.
  - injection Hc as <-. rewrite Hd, Nat.add_0_r. reflexivity.
  - specialize (IH (S n) i Hc). rewrite Hloop in IH. cbn [snd] in IH.
    rewrite IH. replace (n + S i) with (S n + i) by lia. reflexivity.
Qed.

Lemma browserstack_loop_length (cfg : Config) (user key : JsVal)
    (caps : list Capability) (n : nat) :
  length (snd (browserstack_loop cfg user key n caps)) = length caps.
Proof.
  revert n. induction caps as [|c0 rest IH]; intros n; [reflexivity|].
  cbn [browserstack_loop].
  destruct (browserstack_environment cfg user key n c0) as [c0' e].
  specialize (IH (S n)).
  destruct (browserstack_loop cfg user key (S n) rest) as [rest' es].
  simpl in *. rewrite IH. reflexivity.
Qed.

Lemma suites_lookup (cfg : Config) (title : string)
    (defineTests : TestInputs.t -> list Registration)
    (envs : list TestEnvironment) (n i : nat) :
  suites cfg title defineTests n envs !! i =
  suite cfg title defineTests (n + i) <$> envs !! i.
Proof.
  revert n i. induction envs as [|e rest IH]; intros n i; [reflexivity|].
  destruct i as [|i]; simpl.
  - rewrite Nat.add_0_r. reflexivity.
  - rewrite IH. replace (n + S i) with (S n + i) by lia. reflexivity.
Qed.

Lemma suites_length (cfg : Config) (title : string)
    (defineTests : TestInputs.t -> list Registration)
    (envs : list TestEnvironment) (n : nat) :
  length (suites cfg title defineTests n envs) = length envs.
Proof.
  revert n. induction envs as [|e rest IH]; intros n; [reflexivity|].
  simpl. rewrite IH. reflexivity.
Qed.

(** C7.  [createTestSuites] enumerates the cloud grid when
    [config.browserStack.enabled] is truthy and the local browsers
    otherwise, and registers one group per environment, in order: its
    title is the caller's title, a space and the description in square
    brackets; its body is the step that creates the driver from the
    environment's factory, one call of the caller's callback on the
    inputs of that environment (its description, the configured host URL,
    its driver object), the screenshot hook and the disposal hook.  The
    cloud enumerator yields one environment per capability object, its
    description the object's [desc]; the local one yields firefox and
    chrome, then safari on darwin or edge on win32. *)
Theorem createTestSuites_registers (cfg : Config) (platform title : string)
    (defineTests : TestInputs.t -> list Registration) (caps : list Capability) :
  let envs := snd (testEnvironments cfg platform caps) in
  let regs := snd (createTestSuites cfg platform title defineTests caps) in
  (truthy (enabled (browserStack cfg)) = true ->
   envs = snd (getBrowserstackEnvironments cfg caps
                 (user (browserStack cfg)) (key (browserStack cfg)))) /\
  (truthy (enabled (browserStack cfg)) = false ->
   envs = getLocalSystemBrowserEnvironments platform) /\
  length regs = length envs /\
  (forall (n : nat) (e : TestEnvironment),
      envs !! n = Some e ->
      let testInputs :=
        {| TestInputs.envDesc := description e;
           TestInputs.browserHostUrl := browserHostUrl cfg;
           TestInputs.driver := n |} in
      regs !! n =
      Some (Describe (title +:+ " [" +:+ to_string (description e) +:+ "]")
              [Step "create selenium webdriver" 120000 (createDriver e) n;
               Defined testInputs (defineTests testInputs);
               AfterEach n;
               After n])) /\
  (forall u k : JsVal,
      length (snd (getBrowserstackEnvironments cfg caps u k)) = length caps /\
      forall (i : nat) (c : Capability),
        caps !! i = Some c ->
        snd (getBrowserstackEnvironments cfg caps u k) !! i =
        Some {| description := prop c "desc";
                createDriver := UsingServer BROWSERSTACK_HUB_URL i |}) /\
  getLocalSystemBrowserEnvironments platform =
  map (fun browser =>
         {| description := JStr (platform +:+ " " +:+ browser);
            createDriver := ForBrowser browser |})
      (["firefox"; "chrome"] ++
       (if String.eqb platform "darwin" then ["safari"]
        else if String.eqb platform "win32" then ["edge"] else []))%list.
Proof.
  intros envs regs. subst envs regs.
  assert (Hregs : snd (createTestSuites cfg platform title defineTests caps) =
                  suites cfg title defineTests 0 (snd (testEnvironments cfg platform caps))).
  { unfold createTestSuites.
    destruct (testEnvironments cfg platform caps) as [caps' envs]. reflexivity. }
  rewrite Hregs.
  refine (conj _ (conj _ (conj _ (conj _ (conj _ _))))).
  - intros Hon. unfold testEnvironments. rewrite Hon. reflexivity.
  - intros Hoff. unfold testEnvironments. rewrite Hoff. reflexivity.
  - apply suites_length.
  - intros n e He testInputs. rewrite suites_lookup, He. reflexivity.
  - intros u k. unfold getBrowserstackEnvironments. split.
    + apply browserstack_loop_length.
    + intros i c Hc. apply (browserstack_loop_lookup cfg u k caps 0 i c Hc).
  - unfold getLocalSystemBrowserEnvironments.
    destruct (String.eqb platform "darwin"); [reflexivity|].
    destruct (String.eqb platform "win32"); reflexivity.
Qed.

(** * Further properties *)

(** ** The host and the errors of the load *)

Lemma host_of_unset (env : Env) :
  env !! E2E_BROWSER_HOST = None \/ env !! E2E_BROWSER_HOST = Some "" ->
  host_of env = PROD_HOST /\ host_line env = (LWarn, host_not_set_warning).
Proof.
  intros Hh. unfold host_of, host_line, getenv.
  destruct Hh as [-> | ->]; split; reflexivity.
Qed.

Lemma host_of_set (env : Env) (h : string) :
  env !! E2E_BROWSER_HOST = Some h -> h <> "" ->
  host_of env = h /\ host_line env = (LLog, endpoint_message (JStr h)).
Proof.
  intros Hh Hne.
  assert (Ho : host_of env = h).
  { unfold host_of. rewrite Hh. destruct (String.eqb_spec h ""); [contradiction|reflexivity]. }
  split; [exact Ho|]. unfold host_line, getenv. rewrite Hh, Ho. simpl.
  destruct (String.eqb_spec h ""); [contradiction|reflexivity].
Qed.

(** The first console line, the host and the flag, however the load ends. *)
Lemma load_host `{UrlModule} (env : Env) :
  head (console (snd (load env))) = Some (host_line env) /\
  (localEnabled (browserStack (config (snd (load env)))) = JBool false ->
   browserHostUrl (config (snd (load env))) = JStr (host_of env)).
Proof.
  destruct (load_cases env) as [? ->|? ? ->|? ? ? ? ? ? ->|a u ? ? ? ? ->];
    try (split; reflexivity).
  split; [reflexivity|]. cbn [snd state_of config]. unfold config_86.
  destruct (includes _ _); [discriminate|reflexivity].
Qed.

(** X1.  The load first reports the host on the console: a warning and
    the production endpoint when E2E_BROWSER_HOST is unset or empty, a
    log line naming the variable's value otherwise; and unless the
    local-tunnel flag is set that endpoint is the configured host URL.
    This holds however the load ends. *)
Theorem host_resolution `{UrlModule} (env : Env) :
  let st := snd (load env) in
  (env !! E2E_BROWSER_HOST = None \/ env !! E2E_BROWSER_HOST = Some "" ->
   head (console st) = Some (LWarn, host_not_set_warning) /\
   (localEnabled (browserStack (config st)) = JBool false ->
    browserHostUrl (config st) = JStr PROD_HOST)) /\
  (forall h : string,
      env !! E2E_BROWSER_HOST = Some h -> h <> "" ->
      head (console st) =
        Some (LLog, "Running e2e tests against endpoint " +:+ h) /\
      (localEnabled (browserStack (config st)) = JBool false ->
       browserHostUrl (config st) = JStr h)).
Proof.
  intros st. subst st. destruct (load_host env) as [Hhead Hurl]. split.
  - intros Hh. destruct (host_of_unset env Hh) as [Ho Hl].
    rewrite Hhead, Hl. split; [reflexivity|]. intros Hf. rewrite (Hurl Hf), Ho. reflexivity.
  - intros h Hh Hne. destruct (host_of_set env h Hh Hne) as [Ho Hl].
    rewrite Hhead, Hl. split; [reflexivity|]. intros Hf. rewrite (Hurl Hf), Ho. reflexivity.
Qed.


(** X3.  With USE_BROWSERSTACK unset, empty or "false" the load returns
    after one console line and leaves the credentials and the
    local-tunnel flag as they were: BROWSERSTACK_AUTH is not read, and
    the host is not parsed or rewritten, a local one included. *)
Theorem cloud_off_ignores_credentials `{UrlModule} (env : Env) :
  env !! USE_BROWSERSTACK = None \/ env !! USE_BROWSERSTACK = Some "" \/
  env !! USE_BROWSERSTACK = Some "false" ->
  fst (load env) = Normal tt /\
  user (browserStack (config (snd (load env)))) = JStr "" /\
  key (browserStack (config (snd (load env)))) = JStr "" /\
  localEnabled (browserStack (config (snd (load env)))) = JBool false /\
  browserHostUrl (config (snd (load env))) = JStr (host_of env) /\
  length (console (snd (load env))) = 1.
Proof.
  intros Hu.
  assert (Hoff : truthy (enabled_of env) = false).
  { pose proof (enabled_of_cases env) as Hc.
    destruct Hu as [Hu|[Hu|Hu]]; rewrite Hu in Hc; simpl in Hc; rewrite Hc; reflexivity. }
  rewrite (load_disabled env Hoff). repeat split; reflexivity.
Qed.

(** X3, at [env_cloud_off]: credentials and a local host are set, and
    the configuration keeps its empty credentials and the host as given. *)
Lemma cloud_off_ignores_credentials_witness :
  (env_cloud_off !! USE_BROWSERSTACK = None \/ env_cloud_off !! USE_BROWSERSTACK = Some "" \/
   env_cloud_off !! USE_BROWSERSTACK = Some "false") /\
  user (browserStack (config (snd (@load SampleUrl.module env_cloud_off)))) = JStr "" /\
  browserHostUrl (config (snd (@load SampleUrl.module env_cloud_off))) =
    JStr (host_of env_cloud_off).
Proof.
  assert (Hu : env_cloud_off !! USE_BROWSERSTACK = None \/
               env_cloud_off !! USE_BROWSERSTACK = Some "" \/
               env_cloud_off !! USE_BROWSERSTACK = Some "false")
    by (right; right; vm_compute; reflexivity).
  split; [exact Hu|].
  destruct (@cloud_off_ignores_credentials SampleUrl.module env_cloud_off Hu)
    as (_ & Huser & _ & _ & Hurl & _).
  split; [exact Huser|exact Hurl].
Defined.

(** X4.  The local-tunnel flag is a boolean, and it is [true] only after
    a load that returned with cloud mode enabled, on a host whose parsed
    hostname is "localhost" or "127.0.0.1", with the host URL rewritten. *)
Theorem local_tunnel_implies_cloud `{UrlModule} (env : Env) :
  let st := snd (load env) in
  (localEnabled (browserStack (config st)) = JBool true \/
   localEnabled (browserStack (config st)) = JBool false) /\
  (localEnabled (browserStack (config st)) = JBool true ->
   fst (load env) = Normal tt /\
   enabled (browserStack (config st)) = JBool true /\
   exists u : Url,
     url_parse (host_of env) = Normal u /\
     (hostname u = JStr "localhost" \/ hostname u = JStr "127.0.0.1") /\
     browserHostUrl (config st) =
       JStr (url_format (set_hostname_host u (JStr "bs-local.com") JUndefined))).
Proof.
  intros st. subst st.
  destruct (load_cases env) as [? E|? ? E|? ? ? ? ? ? E|a u Hon Ha Hne Hp E];
    rewrite E in *; cbn [fst snd state_of config] in *;
    try (split; [right; reflexivity|discriminate]).
  unfold config_86 in *.
  destruct (includes ["localhost"; "127.0.0.1"] (hostname u)) eqn:Hi;
    cbn in *; [|split; [right; reflexivity|discriminate]].
  split; [left; reflexivity|]. intros _.
  split; [reflexivity|]. split.
  - apply enabled_of_truthy. exact Hon.
  - exists u. split; [exact Hp|]. split; [|reflexivity].
    apply includes_local. exact Hi.
Qed.

(** ** Trimming and splitting the credentials *)

Lemma trimStart_blank (l : string) :
  every_char is_white_space l = true -> trimStart l = "".
Proof.
  induction l as [|c l IH]; [reflexivity|].
  simpl. intros Hl. apply andb_true_iff in Hl as [Hc Hl]. rewrite Hc. exact (IH Hl).
Qed.

Lemma trimStart_pad (l s : string) :
  every_char is_white_space l = true -> trimStart (l +:+ s) = trimStart s.
Proof.
  induction l as [|c l IH]; [reflexivity|].
  simpl. intros Hl. apply andb_true_iff in Hl as [Hc Hl].
  rewrite Hc. exact (IH Hl).
Qed.

Lemma trimEnd_blank (r : string) :
  every_char is_white_space r = true -> trimEnd r = "".
Proof.
  induction r as [|c r IH]; [reflexivity|].
  simpl. intros Hr. apply andb_true_iff in Hr as [Hc Hr].
  rewrite (IH Hr), Hc. reflexivity.
Qed.

Lemma trimEnd_pad (s r : string) :
  every_char is_white_space r = true -> trimEnd (s +:+ r) = trimEnd s.
Proof.
  intros Hr. induction s as [|c s IH].
  - rewrite append_empty_l. apply trimEnd_blank. exact Hr.
  - rewrite ?append_cons. simpl. rewrite IH. reflexivity.
Qed.

Lemma trimStart_app (s r : string) :
  trimStart s <> "" -> trimStart (s +:+ r) = trimStart s +:+ r.
Proof.
  induction s as [|c s IH]; [intros Hs; contradiction Hs; reflexivity|].
  rewrite ?append_cons. simpl.
  destruct (is_white_space c); [exact IH|]. intros _. reflexivity.
Qed.

Lemma trimStart_blank_inv (s : string) :
  trimStart s = "" -> every_char is_white_space s = true.
Proof.
  induction s as [|c s IH]; [reflexivity|].
  simpl. destruct (is_white_space c); [exact IH|discriminate].
Qed.

Lemma trim_pad (l a r : string) :
  every_char is_white_space l = true -> every_char is_white_space r = true ->
  trim (l +:+ a +:+ r) = trim a.
Proof.
  intros Hl Hr. unfold trim. rewrite (trimStart_pad l _ Hl).
  destruct (string_dec (trimStart a) "") as [Ha|Ha].
  - rewrite Ha. pose proof (trimStart_blank_inv a Ha) as Hb.
    rewrite (trimStart_pad a r Hb), (trimStart_blank r Hr). reflexivity.
  - rewrite (trimStart_app a r Ha). apply trimEnd_pad. exact Hr.
Qed.

Lemma trim_blank (a : string) :
  every_char is_white_space a = true -> trim a = "".
Proof. intros Ha. unfold trim. rewrite (trimStart_blank a Ha). reflexivity. Qed.

(** The load reads BROWSERSTACK_AUTH through its truth value and its
    trimmed text only. *)
Lemma load_auth_trimmed `{UrlModule} (env : Env) (a1 a2 : string) :
  a1 <> "" -> a2 <> "" -> trim a1 = trim a2 ->
  load (<[BROWSERSTACK_AUTH := a1]> env) = load (<[BROWSERSTACK_AUTH := a2]> env).
Proof.
  intros H1 H2 Ht.
  set (env1 := <[BROWSERSTACK_AUTH := a1]> env).
  set (env2 := <[BROWSERSTACK_AUTH := a2]> env).
  assert (Hother : forall name : string,
             name <> BROWSERSTACK_AUTH -> getenv env1 name = getenv env2 name).
  { intros name Hn. unfold getenv, env1, env2.
    rewrite !lookup_insert_ne by congruence. reflexivity. }
  assert (Hen : enabled_of env1 = enabled_of env2).
  { unfold enabled_of. rewrite (Hother USE_BROWSERSTACK) by discriminate. reflexivity. }
  assert (Hho : host_of env1 = host_of env2).
  { unfold host_of, env1, env2.
    rewrite !lookup_insert_ne by discriminate. reflexivity. }
  assert (Hli : host_line env1 = host_line env2).
  { unfold host_line. rewrite (Hother E2E_BROWSER_HOST), Hho by discriminate. reflexivity. }
  assert (H47 : config_47 env1 = config_47 env2).
  { unfold config_47. rewrite Hen, Hho. reflexivity. }
  assert (H56 : config_56 env1 a1 = config_56 env2 a2).
  { unfold config_56. rewrite Ht, H47. reflexivity. }
  assert (Ha1 : env1 !! BROWSERSTACK_AUTH = Some a1) by apply lookup_insert_eq.
  assert (Ha2 : env2 !! BROWSERSTACK_AUTH = Some a2) by apply lookup_insert_eq.
  destruct (truthy (enabled_of env1)) eqn:Hon.
  - destruct (url_parse (host_of env1)) as [u|e] eqn:Hp.
    + rewrite (load_parsed env1 a1 u Hon Ha1 H1 Hp).
      rewrite Hen in Hon. rewrite Hho in Hp.
      rewrite (load_parsed env2 a2 u Hon Ha2 H2 Hp).
      unfold config_86. rewrite H56, Hli. reflexivity.
    + rewrite (load_parse_throws env1 a1 e Hon Ha1 H1 Hp).
      rewrite Hen in Hon. rewrite Hho in Hp.
      rewrite (load_parse_throws env2 a2 e Hon Ha2 H2 Hp).
      rewrite H56, Hli. reflexivity.
  - rewrite (load_disabled env1 Hon). rewrite Hen in Hon.
    rewrite (load_disabled env2 Hon), H47, Hli. reflexivity.
Qed.

(** X5.  White space around the value of BROWSERSTACK_AUTH changes
    nothing: the load of an environment whose credentials are padded
    with white space on either side ends as the load with the credentials
    alone, in result, configuration and console. *)
Theorem auth_padding_ignored `{UrlModule} (env : Env) (l a r : string) :
  a <> "" ->
  every_char is_white_space l = true -> every_char is_white_space r = true ->
  load (<[BROWSERSTACK_AUTH := l +:+ a +:+ r]> env) =
  load (<[BROWSERSTACK_AUTH := a]> env).
Proof.
  intros Ha Hl Hr. apply load_auth_trimmed; [|exact Ha|apply trim_pad; assumption].
  destruct l as [|c l]; [|discriminate].
  rewrite append_empty_l. destruct a as [|c a]; [contradiction|discriminate].
Qed.

(** X5, for credentials between a space and a line break. *)
Lemma auth_padding_ignored_witness :
  "alice:s3:cr3t" <> "" /\
  every_char is_white_space " " = true /\
  every_char is_white_space (String "010" "") = true /\
  @load SampleUrl.module
        (<[BROWSERSTACK_AUTH := " " +:+ "alice:s3:cr3t" +:+ String "010" ""]> env_localhost) =
  @load SampleUrl.module (<[BROWSERSTACK_AUTH := "alice:s3:cr3t"]> env_localhost).
Proof.
  assert (Ha : "alice:s3:cr3t" <> "") by discriminate.
  split; [exact Ha|]. split; [reflexivity|]. split; [reflexivity|].
  exact (@auth_padding_ignored SampleUrl.module env_localhost " " "alice:s3:cr3t"
           (String "010" "") Ha eq_refl eq_refl).
Defined.

Lemma config_56_credentials (env : Env) (a : string) :
  (user (browserStack (config_56 env a)), key (browserStack (config_56 env a))) =
  credentials a.
Proof. rewrite <- (split_credentials a). reflexivity. Qed.

Lemma credentials_blank (a : string) :
  every_char is_white_space a = true -> credentials a = (JStr "", JUndefined).
Proof. intros Ha. unfold credentials. rewrite (trim_blank a Ha). reflexivity. Qed.

(** X6.  Credentials of white space only pass the startup check: with
    cloud mode enabled the load stores the empty string as the user and
    no key, and throws nothing but what [url.parse] throws on the host. *)
Theorem blank_auth_accepted `{UrlModule} (env : Env) (a : string) :
  env !! BROWSERSTACK_AUTH = Some a -> a <> "" ->
  every_char is_white_space a = true ->
  truthy (enabled (browserStack (config (snd (load env))))) = true ->
  (forall e : JsError, fst (load env) = Throw e -> url_parse (host_of env) = Throw e) /\
  user (browserStack (config (snd (load env)))) = JStr "" /\
  key (browserStack (config (snd (load env)))) = JUndefined.
Proof.
  intros Ha Hne Hws. rewrite load_enabled. intros Hon.
  pose proof (credentials_blank a Hws) as Hc.
  destruct (url_parse (host_of env)) as [u|e0] eqn:Hp.
  - rewrite (load_parsed env a u Hon Ha Hne Hp). cbn [fst snd state_of config].
    pose proof (config_86_credentials env a u) as Hu. rewrite Hc in Hu.
    pose proof (f_equal fst Hu) as Hu1. pose proof (f_equal snd Hu) as Hu2.
    cbn [fst snd] in Hu1, Hu2.
    split; [intros e [=]|]. split; assumption.
  - rewrite (load_parse_throws env a e0 Hon Ha Hne Hp). cbn [fst snd state_of config].
    pose proof (config_56_credentials env a) as Hu. rewrite Hc in Hu.
    pose proof (f_equal fst Hu) as Hu1. pose proof (f_equal snd Hu) as Hu2.
    cbn [fst snd] in Hu1, Hu2.
    split; [intros e [= <-]; reflexivity|]. split; assumption.
Qed.

(** X6, at [env_blank_auth]: three spaces. *)
Lemma blank_auth_accepted_witness :
  env_blank_auth !! BROWSERSTACK_AUTH = Some "   " /\
  fst (@load SampleUrl.module env_blank_auth) = Normal tt /\
  user (browserStack (config (snd (@load SampleUrl.module env_blank_auth)))) = JStr "" /\
  key (browserStack (config (snd (@load SampleUrl.module env_blank_auth)))) = JUndefined.
Proof.
  assert (Ha : env_blank_auth !! BROWSERSTACK_AUTH = Some "   ")
    by (vm_compute; reflexivity).
  split; [exact Ha|]. split; [vm_compute; reflexivity|].
  refine (proj2 (@blank_auth_accepted SampleUrl.module env_blank_auth "   " Ha _ _ _)).
  - discriminate.
  - reflexivity.
  - vm_compute. reflexivity.
Defined.

Lemma first_separator_exact (s u k : string) :
  first_separator s = Some (u, k) -> has_line_terminator s = false ->
  s = u +:+ ":" +:+ k.
Proof.
  revert u. induction s as [|c s IH]; intros u; [discriminate|].
  cbn [first_separator]. unfold has_line_terminator. simpl.
  destruct (separator_here (String c s)) eqn:Hs.
  - intros [= <- <-] Hl. apply orb_false_iff in Hl as [_ Hl].
    rewrite (until_line_terminator_free s Hl).
    destruct (Ascii.eqb_spec ":" c) as [<-|Hne]; [reflexivity|].
    rewrite separator_here_other in Hs; [discriminate|].
    destruct (Ascii.eqb_spec ":" c); congruence.
  - destruct (first_separator s) as [[u' k']|]; [|discriminate].
    intros [= <- <-] Hl. apply orb_false_iff in Hl as [_ Hl].
    rewrite (IH u' eq_refl Hl). reflexivity.
Qed.

(** X7.  Credentials without a line break are split without loss: when
    the load stored both a user and a key, the trimmed BROWSERSTACK_AUTH
    is the user, a colon and the key. *)
Theorem credentials_rejoin `{UrlModule} (env : Env) (st : State) (a u k : string) :
  load env = (Normal tt, st) ->
  truthy (enabled (browserStack (config st))) = true ->
  env !! BROWSERSTACK_AUTH = Some a ->
  has_line_terminator (trim a) = false ->
  user (browserStack (config st)) = JStr u ->
  key (browserStack (config st)) = JStr k ->
  trim a = u +:+ ":" +:+ k.
Proof.
  intros Hl Hon Ha Hlt Hu Hk.
  destruct (load_credentials env st Hl Hon) as (a' & Ha' & _ & Hc).
  rewrite Ha in Ha'. injection Ha' as <-.
  rewrite Hu, Hk in Hc. unfold credentials in Hc.
  destruct (first_separator (trim a)) as [[u' k']|] eqn:Hf; [|discriminate].
  injection Hc as -> ->. apply first_separator_exact; assumption.
Qed.

(** X7, at [env_localhost]. *)
Lemma credentials_rejoin_witness :
  @load SampleUrl.module env_localhost =
    (Normal tt, snd (@load SampleUrl.module env_localhost)) /\
  env_localhost !! BROWSERSTACK_AUTH = Some "alice:s3:cr3t" /\
  trim "alice:s3:cr3t" = "alice" +:+ ":" +:+ "s3:cr3t".
Proof.
  assert (Hl : @load SampleUrl.module env_localhost =
               (Normal tt, snd (@load SampleUrl.module env_localhost)))
    by (vm_compute; reflexivity).
  assert (Ha : env_localhost !! BROWSERSTACK_AUTH = Some "alice:s3:cr3t")
    by (vm_compute; reflexivity).
  split; [exact Hl|]. split; [exact Ha|].
  apply (@credentials_rejoin SampleUrl.module env_localhost _ _ _ _ Hl); try exact Ha;
    vm_compute; reflexivity.
Defined.

Lemma dot_run_app (s : string) : s = fst (dot_run s) +:+ snd (dot_run s).
Proof.
  induction s as [|c s IH]; [reflexivity|].
  simpl. destruct (is_line_terminator c); [reflexivity|].
  destruct (dot_run s) as [m r]. simpl in *. rewrite IH at 1. reflexivity.
Qed.

Lemma exec_colon_rest_app (s cap rest : string) :
  exec_colon_rest s = Some (cap, rest) -> s = ":" +:+ cap +:+ rest.
Proof.
  rewrite exec_colon_rest_here.
  destruct (separator_here s) eqn:Hs; [|discriminate].
  destruct s as [|c s]; [discriminate|].
  intros [= <- <-].
  destruct (Ascii.eqb_spec ":" c) as [<-|Hne].
  - rewrite <- dot_run_fst. rewrite (dot_run_app s) at 1. reflexivity.
  - rewrite separator_here_other in Hs; [discriminate|].
    destruct (Ascii.eqb_spec ":" c); congruence.
Qed.

Lemma rejoin_split_loop (n : nat) (s piece : string) :
  String.length s <= n -> rejoin (split_loop piece s) = piece +:+ s.
Proof.
  revert s piece. induction n as [|n IH]; intros s piece Hn.
  - destruct s; [|simpl in Hn; lia]. simp split_loop.
    cbn [rejoin to_string]. symmetry. apply append_empty_r.
  - destruct s as [|c s];
      [simp split_loop; cbn [rejoin to_string]; symmetry; apply append_empty_r|].
    rewrite split_loop_cons.
    destruct (exec_colon_rest (String c s)) as [[cap rest]|] eqn:He.
    + pose proof (exec_colon_rest_length _ _ _ He) as Hlen.
      cbn [rejoin to_string]. rewrite IH by (simpl in *; lia).
      rewrite append_empty_l, (exec_colon_rest_app _ _ _ He). reflexivity.
    + rewrite IH by (simpl in *; lia). apply append_snoc.
Qed.

(** X15.  The split loses nothing of its subject: the pieces of the
    array, with a colon and the capture between one piece and the next,
    spell the subject again. *)
Theorem split_rejoin (s : string) : rejoin (split_colon_rest s) = s.
Proof.
  unfold split_colon_rest. rewrite (rejoin_split_loop (String.length s)) by lia.
  reflexivity.
Qed.

(** ** The capability objects *)

(** The object the loop leaves in place of [c]. *)
Lemma browserstack_environment_object (cfg : Config) (u k : JsVal) (i : nat) (c : Capability) :
  fst (browserstack_environment cfg u k i c) =
  if truthy (localEnabled (browserStack cfg))
  then <["browserstack.local" := JStr "true"]>
         (<["browserstack.key" := k]> (<["browserstack.user" := u]> c))
  else <["browserstack.key" := k]> (<["browserstack.user" := u]> c).
Proof.
  unfold browserstack_environment.
  destruct (truthy (localEnabled (browserStack cfg))); reflexivity.
Qed.

Lemma browserstack_loop_objects (cfg : Config) (u k : JsVal)
    (caps : list Capability) (n : nat) :
  fst (browserstack_loop cfg u k n caps) =
  map (fun c => fst (browserstack_environment cfg u k 0 c)) caps.
Proof.
  revert n. induction caps as [|c rest IH]; intros n; [reflexivity|].
  cbn [browserstack_loop map].
  pose proof (browserstack_environment_object cfg u k n c) as Hn.
  pose proof (browserstack_environment_object cfg u k 0 c) as H0.
  destruct (browserstack_environment cfg u k n c) as [c' e].
  specialize (IH (S n)).
  destruct (browserstack_loop cfg u k (S n) rest) as [rest' es].
  cbn [fst] in *. rewrite IH, H0, Hn. reflexivity.
Qed.

(** X8.  Enumerating the cloud grid rewrites the shared capability
    objects in place: the array keeps its length, and each object gets
    the user and the key under "browserstack.user" and
    "browserstack.key", and "browserstack.local" set to the string "true"
    when the local-tunnel flag is set; without the flag an earlier
    "browserstack.local" stays as it was, and no other property changes. *)
Theorem capabilities_after_enumeration (cfg : Config) (caps : list Capability) (u k : JsVal) :
  let caps' := fst (getBrowserstackEnvironments cfg caps u k) in
  length caps' = length caps /\
  forall (i : nat) (c : Capability),
    caps !! i = Some c ->
    exists c' : Capability,
      caps' !! i = Some c' /\
      c' !! "browserstack.user" = Some u /\
      c' !! "browserstack.key" = Some k /\
      c' !! "browserstack.local" =
        (if truthy (localEnabled (browserStack cfg)) then Some (JStr "true")
         else c !! "browserstack.local") /\
      forall name : string,
        name <> "browserstack.user" -> name <> "browserstack.key" ->
        name <> "browserstack.local" -> c' !! name = c !! name.
Proof.
  intros caps'. subst caps'. unfold getBrowserstackEnvironments.
  rewrite browserstack_loop_objects. split; [apply length_map|].
  intros i c Hc. exists (fst (browserstack_environment cfg u k 0 c)).
  split; [rewrite list_lookup_fmap, Hc; reflexivity|].
  rewrite browserstack_environment_object.
  destruct (truthy (localEnabled (browserStack cfg))).
  - split; [rewrite lookup_insert_ne, lookup_insert_ne, lookup_insert_eq
              by discriminate; reflexivity|].
    split; [rewrite lookup_insert_ne, lookup_insert_eq by discriminate; reflexivity|].
    split; [apply lookup_insert_eq|].
    intros name H1 H2 H3. rewrite !lookup_insert_ne by congruence. reflexivity.
  - split; [rewrite lookup_insert_ne, lookup_insert_eq by discriminate; reflexivity|].
    split; [apply lookup_insert_eq|].
    split; [rewrite !lookup_insert_ne by discriminate; reflexivity|].
    intros name H1 H2 H3. rewrite !lookup_insert_ne by congruence. reflexivity.
Qed.

Lemma browserstack_environment_again (cfg : Config) (u k : JsVal) (i j : nat) (c : Capability) :
  fst (browserstack_environment cfg u k i (fst (browserstack_environment cfg u k j c))) =
  fst (browserstack_environment cfg u k j c).
Proof.
  rewrite !browserstack_environment_object.
  destruct (truthy (localEnabled (browserStack cfg)));
    apply map_eq; intros name; rewrite !lookup_insert;
    repeat case_decide; congruence.
Qed.

Lemma browserstack_loop_again (cfg : Config) (u k : JsVal) (caps : list Capability) (n : nat) :
  browserstack_loop cfg u k n (fst (browserstack_loop cfg u k n caps)) =
  browserstack_loop cfg u k n caps.
Proof.
  revert n. induction caps as [|c rest IH]; intros n; [reflexivity|].
  cbn [browserstack_loop].
  pose proof (browserstack_environment_again cfg u k n n c) as Hobj.
  pose proof (browserstack_environment_description cfg u k n c) as Hd.
  pose proof (browserstack_environment_description cfg u k n
                (fst (browserstack_environment cfg u k n c))) as Hd'.
  assert (Hdesc : prop (fst (browserstack_environment cfg u k n c)) "desc" = prop c "desc").
  { rewrite browserstack_environment_object. unfold prop.
    destruct (truthy (localEnabled (browserStack cfg)));
      rewrite !lookup_insert_ne by discriminate; reflexivity. }
  destruct (browserstack_environment cfg u k n c) as [c1 e1].
  specialize (IH (S n)).
  destruct (browserstack_loop cfg u k (S n) rest) as [rest1 es1].
  cbn [fst snd] in *. cbn [browserstack_loop].
  destruct (browserstack_environment cfg u k n c1) as [c2 e2].
  cbn [fst snd] in *. rewrite IH. subst c2. rewrite Hd', Hdesc, <- Hd. reflexivity.
Qed.

(** X9.  A second call of [createTestSuites], from another test file with
    its own title and callback, finds the capability objects as the first
    call left them, leaves them so, and enumerates the same environments. *)
Theorem createTestSuites_again (cfg : Config) (platform : string)
    (title1 title2 : string) (define1 define2 : TestInputs.t -> list Registration)
    (caps : list Capability) :
  let caps1 := fst (createTestSuites cfg platform title1 define1 caps) in
  fst (createTestSuites cfg platform title2 define2 caps1) = caps1 /\
  snd (testEnvironments cfg platform caps1) = snd (testEnvironments cfg platform caps).
Proof.
  assert (Hfst : forall t d cs,
             fst (createTestSuites cfg platform t d cs) =
             fst (testEnvironments cfg platform cs)).
  { intros t d cs. unfold createTestSuites.
    destruct (testEnvironments cfg platform cs); reflexivity. }
  intros caps1. subst caps1. rewrite !Hfst. unfold testEnvironments.
  destruct (truthy (enabled (browserStack cfg))); [|split; reflexivity].
  unfold getBrowserstackEnvironments. rewrite browserstack_loop_again.
  split; reflexivity.
Qed.

(** ** The local suites *)

Lemma append_assoc (a b c : string) : (a +:+ b) +:+ c = a +:+ (b +:+ c).
Proof.
  induction a as [|d a IH]; [reflexivity|].
  rewrite !append_cons, IH. reflexivity.
Qed.

Lemma append_inj_l (t x y : string) : t +:+ x = t +:+ y -> x = y.
Proof.
  induction t as [|d t IH]; [intros Hxy; exact Hxy|].
  rewrite !append_cons. intros [= Hxy]. exact (IH Hxy).
Qed.

Ltac distinct_strings :=
  let Hin := fresh "Hin" in
  intros Hin;
  repeat (apply elem_of_cons in Hin as [Hin|Hin]; [discriminate|]);
  apply elem_of_nil in Hin; exact Hin.

(** Two local titles that agree name the same browser, up to the bracket. *)
Lemma local_title_inj (title platform b b' : string) :
  title +:+ " [" +:+ to_string (JStr (platform +:+ " " +:+ b)) +:+ "]" =
  title +:+ " [" +:+ to_string (JStr (platform +:+ " " +:+ b')) +:+ "]" ->
  b +:+ "]" = b' +:+ "]".
Proof.
  cbn [to_string]. intros Ht.
  apply append_inj_l in Ht. apply (append_inj_l " [") in Ht.
  rewrite !append_assoc in Ht.
  apply append_inj_l in Ht. apply (append_inj_l " ") in Ht. exact Ht.
Qed.

(** X10.  With cloud mode disabled [createTestSuites] leaves the
    capability objects alone and registers two or three groups, one per
    local browser, whose titles differ from one another. *)
Theorem local_suites_distinct (cfg : Config) (platform title : string)
    (defineTests : TestInputs.t -> list Registration) (caps : list Capability) :
  truthy (enabled (browserStack cfg)) = false ->
  fst (createTestSuites cfg platform title defineTests caps) = caps /\
  2 <= length (snd (createTestSuites cfg platform title defineTests caps)) <= 3 /\
  NoDup (map registration_title (snd (createTestSuites cfg platform title defineTests caps))).
Proof.
  intros Hoff. unfold createTestSuites, testEnvironments. rewrite Hoff.
  cbn [fst snd]. split; [reflexivity|].
  unfold getLocalSystemBrowserEnvironments.
  assert (Hset3 : forall b : string,
             b <> "firefox" -> b <> "chrome" ->
             set_of [] ["firefox"; "chrome"; b] = ["firefox"; "chrome"; b]).
  { intros b H1 H2. cbn [set_of].
    rewrite !bool_decide_eq_false_2; [reflexivity|..];
      rewrite ?elem_of_cons, elem_of_nil; intuition congruence. }
  assert (Hset2 : set_of [] ["firefox"; "chrome"] = ["firefox"; "chrome"])
    by reflexivity.
  assert (Hnodup : forall l : list string,
             NoDup (map (fun b => b +:+ "]") l) ->
             NoDup (map registration_title
                      (suites cfg title defineTests 0
                         (map (fun browser =>
                                 {| description := JStr (platform +:+ " " +:+ browser);
                                    createDriver := ForBrowser browser |}) l)))).
  { intros l. generalize 0.
    induction l as [|b l IH]; intros n Hl; [apply NoDup_nil_2|].
    cbn [map suites suite registration_title description] in *.
    apply NoDup_cons in Hl as [Hb Hl]. apply NoDup_cons_2; [|apply IH; exact Hl].
    intros Hin. apply Hb. clear IH Hl Hb. revert n Hin.
    induction l as [|b' l IHl]; intros n Hin.
    - apply elem_of_nil in Hin. contradiction.
    - cbn [map suites suite registration_title description] in *.
      apply elem_of_cons in Hin as [Hin|Hin].
      + injection Hin as Hin. apply local_title_inj in Hin. rewrite Hin. left.
      + right. exact (IHl (S n) Hin). }
  destruct (String.eqb platform "darwin");
    [|destruct (String.eqb platform "win32")]; cbn [app].
  - rewrite Hset3 by discriminate. split; [simpl; lia|].
    apply Hnodup. cbv [map]. repeat (apply NoDup_cons_2; [distinct_strings|]). apply NoDup_nil_2.
  - rewrite Hset3 by discriminate. split; [simpl; lia|].
    apply Hnodup. cbv [map]. repeat (apply NoDup_cons_2; [distinct_strings|]). apply NoDup_nil_2.
  - rewrite Hset2. split; [simpl; lia|].
    apply Hnodup. cbv [map]. repeat (apply NoDup_cons_2; [distinct_strings|]). apply NoDup_nil_2.
Qed.

(** X10, on a Linux machine with the initial configuration. *)
Lemma local_suites_distinct_witness :
  truthy (enabled (browserStack config0)) = false /\
  fst (createTestSuites config0 "linux" "Sign in" (fun _ => [Test "opens"])
         sample_capabilities) = sample_capabilities /\
  2 <= length (snd (createTestSuites config0 "linux" "Sign in" (fun _ => [Test "opens"])
                      sample_capabilities)) <= 3.
Proof.
  split; [reflexivity|].
  destruct (local_suites_distinct config0 "linux" "Sign in" (fun _ => [Test "opens"])
              sample_capabilities eq_refl) as (Hcaps & Hlen & _).
  split; [exact Hcaps|exact Hlen].
Defined.

Example local_suites_on_linux :
  map registration_title
      (snd (createTestSuites config0 "linux" "Sign in" (fun _ => [Test "opens"])
              sample_capabilities)) =
  [Some "Sign in [linux firefox]"; Some "Sign in [linux chrome]"].
Proof. vm_compute. reflexivity. Qed.

(** ** What a run calls, and what the hooks leave alone *)

(** X11.  The calls of a process, in order.  A load that throws runs
    nothing.  Without the local-tunnel flag the suites run and the daemon
    is never touched.  With the flag and a daemon that starts, the daemon
    is created and started with the configured key, every suite runs,
    and the daemon is stopped; with a daemon that fails to start, no
    suite runs and the daemon is not stopped. *)
Theorem process_calls `{UrlModule} (env : Env) (w : World) (suites : list string) :
  let tr := trace (process env w suites) in
  let cfg := config (snd (load env)) in
  (forall e : JsError, fst (load env) = Throw e -> tr = []) /\
  (fst (load env) = Normal tt ->
   (truthy (localEnabled (browserStack cfg)) = false -> tr = map SuiteRun suites) /\
   (truthy (localEnabled (browserStack cfg)) = true -> start_error w = None ->
    tr = ([TunnelNew; TunnelStart (key (browserStack cfg)); TunnelStarted None] ++
          map SuiteRun suites ++ [TunnelStop; TunnelStopped (stop_error w)])%list) /\
   (truthy (localEnabled (browserStack cfg)) = true ->
    forall e : JsError,
      start_error w = Some e ->
      tr = [TunnelNew; TunnelStart (key (browserStack cfg)); TunnelStarted (Some e)])).
Proof.
  intros tr cfg. subst tr cfg. rewrite process_trace. split.
  - intros e ->. reflexivity.
  - intros ->. unfold run_trace.
    refine (conj _ (conj _ _)).
    + intros ->. reflexivity.
    + intros -> ->. reflexivity.
    + intros -> e ->. reflexivity.
Qed.

(** X12.  No hook writes the configuration, and the two hooks of a suite
    leave the daemon variable alone; with a driver object that was never
    filled they do nothing at all, whatever the state of the test. *)
Theorem hooks_leave_configuration (w : World) (st : State) (state : JsVal) (driver : DriverCell) :
  config (snd (afterEach_hook w state driver st)) = config st /\
  blockStackLocalInstance (snd (afterEach_hook w state driver st)) =
    blockStackLocalInstance st /\
  config (snd (suite_after w driver st)) = config st /\
  blockStackLocalInstance (snd (suite_after w driver st)) = blockStackLocalInstance st /\
  config (snd (root_before w st)) = config st /\
  config (snd (root_after w st)) = config st /\
  afterEach_hook w state {| has_screenshot := false; has_quit := false |} st =
    (Normal tt, st) /\
  suite_after w {| has_screenshot := false; has_quit := false |} st = (Normal tt, st).
Proof.
  refine (conj _ (conj _ (conj _ (conj _ (conj _ (conj _ (conj _ _))))))).
  - destruct (strict_eq state (JStr "failed") && has_screenshot driver) eqn:Hg.
    + rewrite (afterEach_hook_runs w state driver st Hg). cbn [snd].
      destruct (if existsSync w (errDir w) then _ else _); reflexivity.
    + rewrite (afterEach_hook_skips w state driver st Hg). reflexivity.
  - destruct (strict_eq state (JStr "failed") && has_screenshot driver) eqn:Hg.
    + rewrite (afterEach_hook_runs w state driver st Hg). cbn [snd].
      destruct (if existsSync w (errDir w) then _ else _); reflexivity.
    + rewrite (afterEach_hook_skips w state driver st Hg). reflexivity.
  - rewrite suite_after_run. cbn [snd]. destruct (has_quit driver); reflexivity.
  - rewrite suite_after_run. cbn [snd]. destruct (has_quit driver); reflexivity.
  - rewrite root_before_run.
    destruct (truthy (localEnabled (browserStack (config st)))); reflexivity.
  - rewrite root_after_run.
    destruct (blockStackLocalInstance st) as [[[|]]|]; reflexivity.
  - apply afterEach_hook_skips. simpl. apply andb_false_r.
  - rewrite suite_after_run. reflexivity.
Qed.

(** ** The number in the screenshot name *)

Lemma to_int32_range (z : Z) : (- 2 ^ 31 <= to_int32 z < 2 ^ 31)%Z.
Proof.
  unfold to_int32.
  pose proof (Z.mod_pos_bound z (2 ^ 32) ltac:(lia)) as Hm.
  destruct (Z.geb_spec (z mod 2 ^ 32) (2 ^ 31)); lia.
Qed.

Lemma to_int32_congruent (z : Z) : ((to_int32 z - z) mod 2 ^ 32 = 0)%Z.
Proof.
  unfold to_int32.
  pose proof (Z.div_mod z (2 ^ 32) ltac:(lia)) as Hd.
  destruct (Z.geb_spec (z mod 2 ^ 32) (2 ^ 31)).
  - replace (z mod 2 ^ 32 - 2 ^ 32 - z)%Z with ((- (z / 2 ^ 32) - 1) * 2 ^ 32)%Z by lia.
    apply Z.mod_mul. lia.
  - replace (z mod 2 ^ 32 - z)%Z with ((- (z / 2 ^ 32)) * 2 ^ 32)%Z by lia.
    apply Z.mod_mul. lia.
Qed.

(** X14.  Whatever the clock shows, the number in the screenshot name is
    a signed 32-bit integer that differs from the whole seconds of the
    clock by a multiple of 2^32; so two clocks 2^32 seconds apart give
    the same number. *)
Theorem screenshot_seconds_wrap (now_ms : Z) :
  (- 2 ^ 31 <= seconds_int32 now_ms < 2 ^ 31)%Z /\
  ((seconds_int32 now_ms - Z.quot now_ms 1000) mod 2 ^ 32 = 0)%Z /\
  ((0 <= now_ms)%Z -> seconds_int32 (now_ms + 2 ^ 32 * 1000) = seconds_int32 now_ms).
Proof.
  unfold seconds_int32. split; [apply to_int32_range|]. split; [apply to_int32_congruent|].
  intros Hn. rewrite !Z.quot_div_nonneg by lia.
  rewrite Z.div_add by lia.
  generalize (now_ms / 1000)%Z. intros x. unfold to_int32.
  replace (x + 2 ^ 32)%Z with (x + 1 * 2 ^ 32)%Z by lia.
  rewrite Z.mod_add by lia. reflexivity.
Qed.

(** ** The key of the tunnel and of the grid *)

(** A set local-tunnel flag comes with cloud mode. *)
Lemma load_local_cloud `{UrlModule} (env : Env) :
  localEnabled (browserStack (config (snd (load env)))) = JBool true ->
  truthy (enabled (browserStack (config (snd (load env))))) = true.
Proof.
  rewrite load_enabled.
  destruct (load_cases env) as [? E|? ? E|? ? ? ? ? ? E|a u Hon Ha Hne Hp E];
    rewrite E; cbn [snd state_of config]; try discriminate.
  intros _. exact Hon.
Qed.

(** X13.  With the local-tunnel flag set, the tunnel and the grid sessions
    use the same credentials: the daemon is started with the configured
    key as the second call of the process, and every capability object
    [createTestSuites] leaves behind carries the configured user, that
    key, and "browserstack.local" set to "true". *)
Theorem tunnel_and_grid_share_key `{UrlModule} (env : Env) (w : World)
    (suites : list string) (platform title : string)
    (defineTests : TestInputs.t -> list Registration) (caps : list Capability) :
  fst (load env) = Normal tt ->
  localEnabled (browserStack (config (snd (load env)))) = JBool true ->
  let cfg := config (snd (load env)) in
  trace (process env w suites) !! 1 = Some (TunnelStart (key (browserStack cfg))) /\
  forall (i : nat) (c : Capability),
    caps !! i = Some c ->
    exists c' : Capability,
      fst (createTestSuites cfg platform title defineTests caps) !! i = Some c' /\
      c' !! "browserstack.user" = Some (user (browserStack cfg)) /\
      c' !! "browserstack.key" = Some (key (browserStack cfg)) /\
      c' !! "browserstack.local" = Some (JStr "true").
Proof.
  intros Hload Hlocal cfg. subst cfg.
  pose proof (load_local_cloud env Hlocal) as Hcloud.
  assert (Htruthy : truthy (localEnabled (browserStack (config (snd (load env))))) = true)
    by (rewrite Hlocal; reflexivity).
  split.
  - rewrite process_trace, Hload. unfold run_trace. rewrite Htruthy. reflexivity.
  - intros i c Hc.
    set (cfg := config (snd (load env))) in *.
    exists (fst (browserstack_environment cfg (user (browserStack cfg))
                   (key (browserStack cfg)) 0 c)).
    split.
    + unfold createTestSuites, testEnvironments. rewrite Hcloud.
      unfold getBrowserstackEnvironments.
      pose proof (browserstack_loop_objects cfg (user (browserStack cfg))
                    (key (browserStack cfg)) caps 0) as Hobj.
      destruct (browserstack_loop cfg (user (browserStack cfg))
                  (key (browserStack cfg)) 0 caps) as [caps' envs].
      cbn [fst] in *. rewrite Hobj, list_lookup_fmap, Hc. reflexivity.
    + rewrite browserstack_environment_object, Htruthy.
      split; [rewrite lookup_insert_ne, lookup_insert_ne, lookup_insert_eq
                by discriminate; reflexivity|].
      split; [rewrite lookup_insert_ne, lookup_insert_eq by discriminate; reflexivity|].
      apply lookup_insert_eq.
Qed.

(** X13, at [env_localhost], for the first of the sample capabilities. *)
Lemma tunnel_and_grid_share_key_witness :
  fst (@load SampleUrl.module env_localhost) = Normal tt /\
  localEnabled (browserStack (config (snd (@load SampleUrl.module env_localhost)))) =
    JBool true /\
  trace (@process SampleUrl.module env_localhost calm_world ["sign in"]) !! 1 =
    Some (TunnelStart
            (key (browserStack (config (snd (@load SampleUrl.module env_localhost)))))).
Proof.
  assert (Hl : fst (@load SampleUrl.module env_localhost) = Normal tt)
    by (vm_compute; reflexivity).
  assert (Hf : localEnabled (browserStack
                 (config (snd (@load SampleUrl.module env_localhost)))) = JBool true)
    by (vm_compute; reflexivity).
  split; [exact Hl|]. split; [exact Hf|].
  exact (proj1 (@tunnel_and_grid_share_key SampleUrl.module env_localhost calm_world
                  ["sign in"] "linux" "Sign in" (fun _ => [Test "opens"])
                  sample_capabilities Hl Hf)).
Defined.

Example capabilities_with_tunnel :
  fst (createTestSuites (config (snd (@load SampleUrl.module env_localhost)))
         "linux" "Sign in" (fun _ => [Test "opens"]) sample_capabilities) =
  [ <["browserstack.local" := JStr "true"]>
      (<["browserstack.key" := JStr "s3:cr3t"]>
         (<["browserstack.user" := JStr "alice"]>
            (<["desc" := JStr "Windows 10 Chrome"]> (<["browser" := JStr "Chrome"]> ∅))));
    <["browserstack.local" := JStr "true"]>
      (<["browserstack.key" := JStr "s3:cr3t"]>
         (<["browserstack.user" := JStr "alice"]>
            (<["desc" := JStr "OS X Safari"]>
               (<["browser" := JStr "Safari"]>
                  (<["browserstack.local" := JStr "false"]> ∅))))) ].
Proof. vm_compute. reflexivity. Qed.
